(** * AI Humaniser: the front-end request paths, the retrieval query and the
    iteration controller

    Embedded here:
    - [frontend/src/hooks/use-humaniser.ts]            (module [UseHumaniser])
    - [frontend/src/components/url-scraper-form.tsx]   (module [UrlScraperForm])
    - [components/output-display.tsx], [components/metrics-display.tsx] and
      the results grid of [frontend/src/app/page.tsx]  (module [Display])
    - [supabase_schema.sql], function [match_human_content]
                                                       (module [Schema])
    - the Python back end (orchestrator, exemplar store), which is not among
      the sources: module [Orchestrator] is written from the design document
      and says so at each definition.

    Definitions come first, module by module; the facts follow. *)

From Stdlib Require Import List String Ascii Bool Arith ZArith NArith Lia.
From Stdlib Require Import DecimalString QArith Qminmax.
From Stdlib Require Import Reals Lra Sorted Permutation.
Import ListNotations.

Set Implicit Arguments.

(* ================================================================== *)
(** ** JavaScript strings *)
(* ================================================================== *)

(** A JavaScript string is a sequence of UTF-16 code units; [s.length] counts
    code units and [s.trim()] strips WhiteSpace and LineTerminator code points
    (all of them in the Basic Multilingual Plane) from both ends. *)
Module Js.

Definition code_unit := N.
Definition jsstring := list code_unit.

(** ECMAScript WhiteSpace (TAB, VT, FF, ZWNBSP and category Zs) together
    with LineTerminator (LF, CR, LS, PS). *)
Definition isWhiteSpace (c : code_unit) : bool :=
  ((c =? 0x09) || (c =? 0x0A) || (c =? 0x0B) || (c =? 0x0C) || (c =? 0x0D)
   || (c =? 0x20) || (c =? 0xA0) || (c =? 0x1680)
   || ((0x2000 <=? c) && (c <=? 0x200A))
   || (c =? 0x2028) || (c =? 0x2029) || (c =? 0x202F) || (c =? 0x205F)
   || (c =? 0x3000) || (c =? 0xFEFF))%N.

Fixpoint trimStart (s : jsstring) : jsstring :=
  match s with
  | [] => []
  | c :: r => if isWhiteSpace c then trimStart r else s
  end.

Definition trimEnd (s : jsstring) : jsstring := rev (trimStart (rev s)).

Definition trim (s : jsstring) : jsstring := trimEnd (trimStart s).

(** [!s] on a string: only the empty string is falsy. *)
Definition falsy (s : jsstring) : bool :=
  match s with [] => true | _ :: _ => false end.

(** A string literal of the source text (ASCII only). *)
Definition lit (s : string) : jsstring :=
  map N_of_ascii (list_ascii_of_string s).

(** [`${n}`] for an integral number of magnitude below 10^21, where
    JavaScript prints every digit. *)
Definition ofInt (n : Z) : jsstring :=
  lit (NilZero.string_of_int (Z.to_int n)).

(** The value caught by a [catch] clause: an [Error] instance with its
    [message], or any other thrown value. *)
Inductive thrown :=
| ErrorInstance (message : jsstring)
| OtherValue.

(** A settled promise. *)
Inductive settled (A : Type) :=
| Fulfilled (value : A)
| Rejected (reason : thrown).
Arguments Rejected {A} reason.

End Js.

Abbreviation jsstring := Js.jsstring.

(* ================================================================== *)
(** ** Event handlers *)
(* ================================================================== *)

(** An [async] event handler runs a sequence of commands (state setters,
    toasts) and may [await] one call to the back end; what follows the
    [await] depends on how the promise settles. *)
Section Handler.

Variables Cmd Req Resp : Type.

Inductive handler :=
| Return
| Perform (c : Cmd) (k : handler)
| Await (r : Req) (k : Js.settled Resp -> handler).

Inductive event :=
| Performed (c : Cmd)
| Requested (r : Req).

Variable Store : Type.
(** How a command changes the component state. *)
Variable exec : Cmd -> Store -> Store.
(** The back end: how each request settles. *)
Variable backend : Req -> Js.settled Resp.
(** Whatever other handlers do to the component state while this one is
    suspended at its [await]. *)
Variable meanwhile : Store -> Store.

Fixpoint run (h : handler) (st : Store) : Store * list event :=
  match h with
  | Return => (st, [])
  | Perform c k =>
      let (st', log) := run k (exec c st) in (st', Performed c :: log)
  | Await r k =>
      let (st', log) := run (k (backend r)) (meanwhile st) in
      (st', Requested r :: log)
  end.

Fixpoint requests (log : list event) : list Req :=
  match log with
  | [] => []
  | Performed _ :: log' => requests log'
  | Requested r :: log' => r :: requests log'
  end.

Fixpoint commands (log : list event) : list Cmd :=
  match log with
  | [] => []
  | Performed c :: log' => c :: commands log'
  | Requested _ :: log' => commands log'
  end.

End Handler.

Arguments Return {Cmd Req Resp}.
Arguments Perform {Cmd Req Resp} c k.
Arguments Await {Cmd Req Resp} r k.
Arguments Performed {Cmd Req} c.
Arguments Requested {Cmd Req} r.

(** The toast of [hooks/use-toast]. *)
Inductive toast_variant := default | destructive.

Record toast_msg := Toast {
  title : string;
  description : jsstring;
  variant : toast_variant
}.

Notation "c ;; k" := (Perform c k) (at level 61, right associativity).

(* ================================================================== *)
(** ** The types of [lib/api] *)
(* ================================================================== *)

(** Modelled from the spec: the types of [lib/api.ts], which is not among
    the sources. The request and response of the humanise call follow
    section 6 of the design document; the scrape types have the fields the
    form sends and reads. JavaScript numbers are rationals here, and
    integers where they are counts. *)
Module Api.

Inductive Mode := sales | journalist.

Record QualityMetrics := {
  burstiness : Q;
  lexical_diversity : Q;
  contraction_ratio : Q;
  word_count : Z;
  sentence_count : Z
}.

Module HumaniseRequest.
Record t := make { input_text : jsstring; mode : Mode }.
End HumaniseRequest.

Module HumaniseResponse.
Record t := make {
  output_text : jsstring;
  quality_score : Q;
  iterations : Z;
  mode : Mode;
  processing_time_ms : Z;
  metrics : QualityMetrics
}.
End HumaniseResponse.

Module ScrapeRequest.
Record t := make {
  url : jsstring;
  content_type : Mode;
  description : jsstring
}.
End ScrapeRequest.

Module ScrapeResponse.
Record t := make {
  success : bool;
  message : jsstring;
  word_count : Z;
  filename : jsstring
}.
End ScrapeResponse.

End Api.

(* ================================================================== *)
(** ** [hooks/use-humaniser.ts] *)
(* ================================================================== *)

Module UseHumaniser.
Import Api.

Record UseHumaniserState := {
  inputText : jsstring;
  mode : Mode;
  isLoading : bool;
  error : option jsstring;
  result : option HumaniseResponse.t
}.

(** [useState]'s initial value. *)
Definition initial : UseHumaniserState :=
  {| inputText := []; mode := sales; isLoading := false;
     error := None; result := None |}.

(** What the hook does to the world: [setState] with an updater function of
    the previous state, or a toast. *)
Inductive command :=
| setState (updater : UseHumaniserState -> UseHumaniserState)
| toast (t : toast_msg).

Definition exec (c : command) (prev : UseHumaniserState) : UseHumaniserState :=
  match c with
  | setState updater => updater prev
  | toast _ => prev
  end.

Definition setInputText (text : jsstring) : command :=
  setState (fun prev =>
    {| inputText := text; mode := mode prev; isLoading := isLoading prev;
       error := None; result := result prev |}).

Definition setMode (m : Mode) : command :=
  setState (fun prev =>
    {| inputText := inputText prev; mode := m; isLoading := isLoading prev;
       error := error prev; result := result prev |}).

Definition reset : command := setState (fun _ => initial).

Definition clearResult : command :=
  setState (fun prev =>
    {| inputText := inputText prev; mode := mode prev;
       isLoading := isLoading prev; error := None; result := None |}).

(** [setState((prev) => ({ ...prev, error: msg }))]. *)
Definition withError (msg : jsstring) : command :=
  setState (fun prev =>
    {| inputText := inputText prev; mode := mode prev;
       isLoading := isLoading prev; error := Some msg; result := result prev |}).

Definition errorMessageOf (error : Js.thrown) : jsstring :=
  match error with
  | Js.ErrorInstance message => message
  | Js.OtherValue => Js.lit "An unexpected error occurred"
  end.

(** [humanise], closed over the [state] of the render that created it. *)
Definition humanise (state : UseHumaniserState)
  : handler command HumaniseRequest.t HumaniseResponse.t :=
  if Js.falsy (Js.trim (inputText state)) then
    withError (Js.lit "Please enter some text to humanise") ;;
    toast (Toast "Validation Error"
                 (Js.lit "Please enter some text to humanise") destructive) ;;
    Return
  else if List.length (Js.trim (inputText state)) <? 20 then
    withError (Js.lit "Text must be at least 20 characters long") ;;
    toast (Toast "Validation Error"
                 (Js.lit "Text must be at least 20 characters long")
                 destructive) ;;
    Return
  else
    setState (fun prev =>
      {| inputText := inputText prev; mode := mode prev;
         isLoading := true; error := None; result := None |}) ;;
    let request :=
      HumaniseRequest.make (inputText state) (mode state) in
    Await request (fun settled =>
      match settled with
      | Js.Fulfilled response =>
          setState (fun prev =>
            {| inputText := inputText prev; mode := mode prev;
               isLoading := false; error := None;
               result := Some response |}) ;;
          toast (Toast "Success!"
                   (Js.lit "Text humanised successfully in "
                    ++ Js.ofInt (HumaniseResponse.iterations response)
                    ++ Js.lit " iteration"
                    ++ (if (HumaniseResponse.iterations response >? 1)%Z
                        then Js.lit "s" else Js.lit ""))%list
                   default) ;;
          Return
      | Js.Rejected error =>
          let errorMessage := errorMessageOf error in
          setState (fun prev =>
            {| inputText := inputText prev; mode := mode prev;
               isLoading := false; error := Some errorMessage;
               result := None |}) ;;
          toast (Toast "Error" errorMessage destructive) ;;
          Return
      end).

(** One click on the submit button: the handler of the current render runs
    against the store, the back end settles the request, and [meanwhile]
    stands for the other state updates that land before it does. *)
Definition submit (backend : HumaniseRequest.t -> Js.settled HumaniseResponse.t)
    (meanwhile : UseHumaniserState -> UseHumaniserState)
    (state store : UseHumaniserState) :=
  run exec backend meanwhile (humanise state) store.

End UseHumaniser.

(* ================================================================== *)
(** ** [components/url-scraper-form.tsx] *)
(* ================================================================== *)

Module UrlScraperForm.
Import Api.

Record ScrapeResult := {
  success : bool;
  message : jsstring;
  wordCount : Z;
  filename : jsstring
}.

(** The five [useState] cells of the component. *)
Record FormState := {
  url : jsstring;
  contentType : Mode;
  description : jsstring;
  isLoading : bool;
  result : option ScrapeResult
}.

Definition initial : FormState :=
  {| url := []; contentType := journalist; description := [];
     isLoading := false; result := None |}.

Inductive command :=
| preventDefault
| setUrl (v : jsstring)
| setContentType (v : Mode)
| setDescription (v : jsstring)
| setIsLoading (v : bool)
| setResult (v : option ScrapeResult)
| toast (t : toast_msg).

Definition exec (c : command) (st : FormState) : FormState :=
  match c with
  | preventDefault => st
  | setUrl v =>
      {| url := v; contentType := contentType st;
         description := description st; isLoading := isLoading st;
         result := result st |}
  | setContentType v =>
      {| url := url st; contentType := v;
         description := description st; isLoading := isLoading st;
         result := result st |}
  | setDescription v =>
      {| url := url st; contentType := contentType st;
         description := v; isLoading := isLoading st; result := result st |}
  | setIsLoading v =>
      {| url := url st; contentType := contentType st;
         description := description st; isLoading := v; result := result st |}
  | setResult v =>
      {| url := url st; contentType := contentType st;
         description := description st; isLoading := isLoading st;
         result := v |}
  | toast _ => st
  end.

(** [handleSubmit], closed over the values of the render that created it. *)
Definition handleSubmit (state : FormState)
  : handler command ScrapeRequest.t ScrapeResponse.t :=
  preventDefault ;;
  if Js.falsy (Js.trim (url state)) then
    toast (Toast "Validation Error" (Js.lit "Please enter a URL")
                 destructive) ;;
    Return
  else if Js.falsy (Js.trim (description state))
          || (List.length (Js.trim (description state)) <? 5) then
    toast (Toast "Validation Error"
                 (Js.lit "Description must be at least 5 characters long")
                 destructive) ;;
    Return
  else
    setIsLoading true ;;
    setResult None ;;
    let request :=
      ScrapeRequest.make (Js.trim (url state)) (contentType state)
                         (Js.trim (description state)) in
    Await request (fun settled =>
      match settled with
      | Js.Fulfilled response =>
          setResult (Some
            {| success := ScrapeResponse.success response;
               message := ScrapeResponse.message response;
               wordCount := ScrapeResponse.word_count response;
               filename := ScrapeResponse.filename response |}) ;;
          toast (Toast "Success!"
                   (Js.lit "Scraped and indexed "
                    ++ Js.ofInt (ScrapeResponse.word_count response)
                    ++ Js.lit " words from URL")%list
                   default) ;;
          setUrl (Js.lit "") ;;
          setDescription (Js.lit "") ;;
          setIsLoading false ;;
          Return
      | Js.Rejected error =>
          let errorMessage := UseHumaniser.errorMessageOf error in
          toast (Toast "Error" errorMessage destructive) ;;
          setResult (Some
            {| success := false; message := errorMessage;
               wordCount := 0; filename := Js.lit "" |}) ;;
          setIsLoading false ;;
          Return
      end).

Definition handleReset : list command :=
  [setUrl (Js.lit ""); setDescription (Js.lit "");
   setContentType journalist; setResult None].

Definition submit (backend : ScrapeRequest.t -> Js.settled ScrapeResponse.t)
    (meanwhile : FormState -> FormState) (state store : FormState) :=
  run exec backend meanwhile (handleSubmit state) store.

End UrlScraperForm.

(* ================================================================== *)
(** ** Scenarios *)
(* ================================================================== *)

(** The validation scenario of the design document: five characters. *)
Definition hello_state : UseHumaniser.UseHumaniserState :=
  {| UseHumaniser.inputText := Js.lit "hello";
     UseHumaniser.mode := Api.sales;
     UseHumaniser.isLoading := false;
     UseHumaniser.error := None;
     UseHumaniser.result := None |}.

(** The end-to-end scenario of the design document, typed with blanks
    around it. *)
Definition padded_state : UseHumaniser.UseHumaniserState :=
  {| UseHumaniser.inputText :=
       Js.lit "  Furthermore, it is important to note that our product offers exceptional value.  ";
     UseHumaniser.mode := Api.sales;
     UseHumaniser.isLoading := false;
     UseHumaniser.error := None;
     UseHumaniser.result := None |}.

(** A form with a blank URL and a three-letter description. *)
Definition blank_form : UrlScraperForm.FormState :=
  {| UrlScraperForm.url := Js.lit "   ";
     UrlScraperForm.contentType := Api.journalist;
     UrlScraperForm.description := Js.lit "abc";
     UrlScraperForm.isLoading := false;
     UrlScraperForm.result := None |}.

(** A form filled in with blanks around both fields. *)
Definition padded_form : UrlScraperForm.FormState :=
  {| UrlScraperForm.url := Js.lit " https://example.com/article ";
     UrlScraperForm.contentType := Api.journalist;
     UrlScraperForm.description := Js.lit "  Tech news about data breach ";
     UrlScraperForm.isLoading := false;
     UrlScraperForm.result := None |}.

Definition failing_scraper (_ : Api.ScrapeRequest.t)
  : Js.settled Api.ScrapeResponse.t :=
  Js.Rejected (Js.ErrorInstance (Js.lit "Failed to fetch")).

Definition failing_backend (_ : Api.HumaniseRequest.t)
  : Js.settled Api.HumaniseResponse.t :=
  Js.Rejected (Js.ErrorInstance (Js.lit "Failed to fetch")).

(* ================================================================== *)
(** ** JSON objects and the display components *)
(* ================================================================== *)

(** The response body as JavaScript sees it after [JSON.parse]: an object is
    a list of named properties in the order they were written. *)
Module Json.

#[warnings="-register-all"]
Inductive value :=
| Null
| Bool (b : bool)
| Number (q : Q)
| String (s : jsstring)
| Object (properties : list (string * value)).

Fixpoint lookup (name : string) (properties : list (string * value))
  : option value :=
  match properties with
  | [] => None
  | (k, v) :: rest => if String.eqb name k then Some v else lookup name rest
  end.

(** [o.name]; [None] stands for [undefined]. *)
Definition get (name : string) (o : value) : option value :=
  match o with
  | Object properties => lookup name properties
  | _ => None
  end.

Definition asNumber (v : value) : option Q :=
  match v with Number q => Some q | _ => None end.

Definition asString (v : value) : option jsstring :=
  match v with String s => Some s | _ => None end.

End Json.

(** [components/output-display.tsx], [components/metrics-display.tsx] and the
    results grid of [app/page.tsx]. Each component is read as the function
    from its props to what it shows, on props of the types its TypeScript
    interface declares: the view is [None] as soon as a property it binds
    is missing or of another type. (At run time only a missing
    [output_text] or [metrics] throws; a missing number is rendered as NaN
    and a missing text as nothing. Those renderings are not modelled.) *)
Module Display.
Import Api.

Definition bind {A B} (o : option A) (k : A -> option B) : option B :=
  match o with Some a => k a | None => None end.

Notation "x <- o ;; k" := (bind o (fun x => k))
  (at level 61, o at next level, right associativity).

Inductive badge := badge_default | badge_secondary | badge_destructive.

(** [s.split(/\s+/)]: the pieces between maximal runs of white space, the
    empty first and last pieces included. [cur] is the piece being read,
    last character first. *)
Fixpoint split_ws (in_separator : bool) (cur s : jsstring) : list jsstring :=
  match s with
  | [] => [rev cur]
  | c :: r =>
      if Js.isWhiteSpace c then
        if in_separator then split_ws true cur r
        else rev cur :: split_ws true [] r
      else split_ws false (c :: cur) r
  end.

(** [text.trim().split(/\s+/).filter(Boolean).length]. *)
Definition countWords (text : jsstring) : nat :=
  List.length
    (filter (fun piece => negb (Js.falsy piece))
            (split_ws false [] (Js.trim text))).

Definition getScoreBadge (score : Q) : badge :=
  if Qle_bool (8 # 10) score then badge_default
  else if Qle_bool (6 # 10) score then badge_secondary
  else badge_destructive.

Record OutputView := {
  shown_text : jsstring;
  wordCount : nat;
  charCount : nat;
  scoreBadge : badge;
  scorePercent : Q;
  shown_iterations : Q;
  plural : bool;
  shown_processing_time_ms : Json.value;
  shown_mode : Json.value
}.

Definition OutputDisplay (result : Json.value) : option OutputView :=
  output_text <- bind (Json.get "output_text" result) Json.asString ;;
  quality_score <- bind (Json.get "quality_score" result) Json.asNumber ;;
  iterations <- bind (Json.get "iterations" result) Json.asNumber ;;
  processing_time_ms <- Json.get "processing_time_ms" result ;;
  mode <- Json.get "mode" result ;;
  Some {| shown_text := output_text;
          wordCount := countWords output_text;
          charCount := List.length output_text;
          scoreBadge := getScoreBadge quality_score;
          scorePercent := quality_score * 100;
          shown_iterations := iterations;
          plural := negb (Qle_bool iterations 1);
          shown_processing_time_ms := processing_time_ms;
          shown_mode := mode |}.

Inductive progress_colour := green | yellow | red.

Definition getProgressColor (value : Q) : progress_colour :=
  if Qle_bool (7 # 10) value then green
  else if Qle_bool (5 # 10) value then yellow
  else red.

Record MetricItem := {
  label : string;
  value : Q;
  colour : progress_colour
}.

Inductive verdict := Excellent | Good | Needs_improvement.

Record MetricsView := {
  overall : Q;
  overall_verdict : verdict;
  metricItems : list MetricItem;
  shown_word_count : Json.value;
  shown_sentence_count : Json.value
}.

Definition MetricsDisplay (metrics : Json.value) (qualityScore : Q)
  : option MetricsView :=
  burstiness <- bind (Json.get "burstiness" metrics) Json.asNumber ;;
  lexical_diversity <-
    bind (Json.get "lexical_diversity" metrics) Json.asNumber ;;
  contraction_ratio <-
    bind (Json.get "contraction_ratio" metrics) Json.asNumber ;;
  word_count <- Json.get "word_count" metrics ;;
  sentence_count <- Json.get "sentence_count" metrics ;;
  Some {| overall := qualityScore * 100;
          overall_verdict :=
            if Qle_bool (8 # 10) qualityScore then Excellent
            else if Qle_bool (6 # 10) qualityScore then Good
            else Needs_improvement;
          metricItems :=
            [ {| label := "Burstiness"; value := burstiness;
                 colour := getProgressColor burstiness |};
              {| label := "Lexical Diversity"; value := lexical_diversity;
                 colour := getProgressColor lexical_diversity |};
              {| label := "Contraction Ratio"; value := contraction_ratio;
                 colour := getProgressColor contraction_ratio |} ];
          shown_word_count := word_count;
          shown_sentence_count := sentence_count |}.

(** The results grid of [Home]: [OutputDisplay] on the result and
    [MetricsDisplay] on [result.metrics] and [result.quality_score]. *)
Definition ResultsGrid (result : Json.value)
  : option (OutputView * MetricsView) :=
  output <- OutputDisplay result ;;
  metrics <- Json.get "metrics" result ;;
  quality_score <- bind (Json.get "quality_score" result) Json.asNumber ;;
  panel <- MetricsDisplay metrics quality_score ;;
  Some (output, panel).

Definition modeName (m : Mode) : jsstring :=
  match m with
  | sales => Js.lit "sales"
  | journalist => Js.lit "journalist"
  end.

(** Modelled from the spec: the response body the core hands upward. The
    serialising code (the API layer of the back end) is not among the
    sources; section 6 of the design document fixes the shape as
    [{output_text, quality_score, iterations, mode, processing_time_ms,
      metrics:{burstiness, lexical_diversity, contraction_ratio, word_count,
      sentence_count}}]. (The response example of the README lists the first
    three metrics only.) It serves here as a well-typed sample result. *)
Definition deliver (r : HumaniseResponse.t) : Json.value :=
  let m := HumaniseResponse.metrics r in
  Json.Object
    [ ("output_text", Json.String (HumaniseResponse.output_text r));
      ("quality_score", Json.Number (HumaniseResponse.quality_score r));
      ("iterations", Json.Number (inject_Z (HumaniseResponse.iterations r)));
      ("mode", Json.String (modeName (HumaniseResponse.mode r)));
      ("processing_time_ms",
         Json.Number (inject_Z (HumaniseResponse.processing_time_ms r)));
      ("metrics",
         Json.Object
           [ ("burstiness", Json.Number (burstiness m));
             ("lexical_diversity", Json.Number (lexical_diversity m));
             ("contraction_ratio", Json.Number (contraction_ratio m));
             ("word_count", Json.Number (inject_Z (word_count m)));
             ("sentence_count", Json.Number (inject_Z (sentence_count m))) ])
    ]%string.

Definition result_fields : list string :=
  ["output_text"; "quality_score"; "iterations"; "mode";
   "processing_time_ms"; "metrics"]%string.

Definition metrics_fields : list string :=
  ["burstiness"; "lexical_diversity"; "contraction_ratio"; "word_count";
   "sentence_count"]%string.

End Display.

(* ================================================================== *)
(** ** [supabase_schema.sql]: the table and [match_human_content] *)
(* ================================================================== *)

(** Sorting as [ORDER BY] does it on a sequential scan: rows with equal keys
    keep the order of the scan. *)
Section OrderBy.

Variable A : Type.
Variable le : A -> A -> bool.

Fixpoint insert_by (x : A) (sorted : list A) : list A :=
  match sorted with
  | [] => [x]
  | y :: rest => if le x y then x :: sorted else y :: insert_by x rest
  end.

Fixpoint order_by (rows : list A) : list A :=
  match rows with
  | [] => []
  | x :: rest => insert_by x (order_by rest)
  end.

End OrderBy.

Module Schema.

Local Open Scope R_scope.

(** [VECTOR(1536)]: the components of an embedding. pgvector stores them as
    float4 and computes distances in float8; here both are the real numbers
    they stand for, without rounding, overflow or underflow. The facts below
    are those that rounding keeps: orders, bounds that pgvector enforces by
    clamping, counts and provenance. *)
Definition vector := list R.
Definition dimensions : nat := 1536.

(** [FLOAT] (float8): a number, or NaN. *)
Inductive float8 :=
| Finite (x : R)
| NaN.

(** A nullable column or argument is an [option]; [None] is [NULL]. *)
Module human_content.
Record row := make {
  id : N;
  content : string;
  content_type : string;
  topic : option string;
  source_url : option string;
  author : option string;
  published_date : option Z;
  emotional_tone : option string;
  word_count : option Z;
  embedding : option vector;
  created_at : option Z;
  metadata : option string
}.
End human_content.

(** The [RETURNS TABLE] of [match_human_content]. *)
Module matched.
Record row := make {
  id : N;
  content : string;
  content_type : string;
  topic : option string;
  similarity : option float8
}.
End matched.

(** A statement returns its value or raises an error. *)
Inductive sql (A : Type) :=
| Ok (a : A)
| Raise (message : string).
Arguments Ok {A} a.
Arguments Raise {A} message.

Definition sql_bind {A B} (x : sql A) (k : A -> sql B) : sql B :=
  match x with
  | Ok a => k a
  | Raise message => Raise message
  end.

(** Evaluate [f] on every row of a scan; the first error ends it. *)
Fixpoint for_each {A B} (f : A -> sql B) (rows : list A) : sql (list B) :=
  match rows with
  | [] => Ok []
  | r :: rest =>
      sql_bind (f r) (fun b =>
      sql_bind (for_each f rest) (fun bs => Ok (b :: bs)))
  end.

Fixpoint inner_product (a b : vector) : R :=
  match a, b with
  | x :: a', y :: b' => x * y + inner_product a' b'
  | _, _ => 0
  end.

(** pgvector's [cosine_distance]: vectors of different dimensions are
    refused; otherwise the inner product over the root of the product of the
    squared norms, kept within [-1, 1], taken from 1. A zero vector makes the
    quotient 0/0, which is NaN. *)
Definition cosine_distance (a b : vector) : sql float8 :=
  if negb (List.length a =? List.length b)%nat
  then Raise "different vector dimensions"
  else
    let norms := inner_product a a * inner_product b b in
    if Req_dec_T norms 0 then Ok NaN
    else
      let similarity := inner_product a b / sqrt norms in
      let similarity :=
        if Rlt_dec 1 similarity then 1
        else if Rlt_dec similarity (-1) then -1
        else similarity in
      Ok (Finite (1 - similarity)).

(** [a <=> b]; the operator is strict: NULL for a NULL operand. *)
Definition cosine_op (a b : option vector) : sql (option float8) :=
  match a, b with
  | Some x, Some y => sql_bind (cosine_distance x y) (fun d => Ok (Some d))
  | _, _ => Ok None
  end.

(** [1 - d] on float8. *)
Definition one_minus (d : option float8) : option float8 :=
  match d with
  | Some (Finite x) => Some (Finite (1 - x))
  | Some NaN => Some NaN
  | None => None
  end.

(** The ascending sort order of float8 keys: numbers by value, then NaN,
    then NULL. *)
Definition key_le (x y : option float8) : bool :=
  match x, y with
  | Some (Finite a), Some (Finite b) => if Rle_dec a b then true else false
  | Some (Finite _), _ => true
  | Some NaN, Some (Finite _) => false
  | Some NaN, _ => true
  | None, None => true
  | None, Some _ => false
  end.

Section match_human_content.

(** The rows of table [human_content], in scan order. *)
Variable table : list human_content.row.

Variable query_embedding : option vector.
Variable match_count : option Z.
Variable content_type_filter : option string.

(** [WHERE content_type_filter IS NULL
          OR human_content.content_type = content_type_filter] *)
Definition where_clause (h : human_content.row) : bool :=
  match content_type_filter with
  | None => true
  | Some wanted => String.eqb (human_content.content_type h) wanted
  end.

(** A selected row with [human_content.embedding <=> query_embedding], the
    expression of both the [ORDER BY] and the similarity column. *)
Definition with_distance (h : human_content.row)
  : sql (option float8 * human_content.row) :=
  sql_bind (cosine_op (human_content.embedding h) query_embedding)
           (fun distance => Ok (distance, h)).

Definition select_list (keyed : option float8 * human_content.row)
  : matched.row :=
  let (distance, h) := keyed in
  matched.make (human_content.id h) (human_content.content h)
    (human_content.content_type h) (human_content.topic h)
    (one_minus distance).

(** [LIMIT match_count]: NULL is no limit, a negative count is an error. *)
Definition limit_count : sql (option nat) :=
  match match_count with
  | None => Ok None
  | Some n =>
      if (n <? 0)%Z then Raise "LIMIT must not be negative"
      else Ok (Some (Z.to_nat n))
  end.

Definition limit {A} (count : option nat) (rows : list A) : list A :=
  match count with
  | None => rows
  | Some n => firstn n rows
  end.

Definition match_human_content : sql (list matched.row) :=
  sql_bind limit_count (fun count =>
  sql_bind (for_each with_distance (filter where_clause table))
           (fun selected =>
  let ordered := order_by (fun x y => key_le (fst x) (fst y)) selected in
  Ok (map select_list (limit count ordered)))).

End match_human_content.

(** Where a returned row comes from: a table row that passes the filter,
    with the distance of its embedding to the query embedding. *)
Definition row_of (table : list human_content.row) (q : option vector)
    (wanted : option string) (r : matched.row) : Prop :=
  exists h distance,
    In h table /\ where_clause wanted h = true /\
    cosine_op (human_content.embedding h) q = Ok distance /\
    r = select_list (distance, h).

(** What the column type [VECTOR(1536)] makes sure of. *)
Definition has_dimensions (v : option vector) : Prop :=
  match v with
  | Some x => List.length x = dimensions
  | None => True
  end.

(** Descending order of the similarity column, rows without a number (NaN,
    then NULL) last. *)
Definition similarity_ge (s1 s2 : option float8) : Prop :=
  match s1, s2 with
  | Some (Finite a), Some (Finite b) => b <= a
  | Some (Finite _), _ => True
  | Some NaN, Some (Finite _) => False
  | Some NaN, _ => True
  | None, None => True
  | None, Some _ => False
  end.

(** Two embeddings that point in opposite directions. *)
Definition unit_vector : vector := 1 :: repeat 0 1535.
Definition opposite_vector : vector := -1 :: repeat 0 1535.

Definition opposite_row : human_content.row :=
  human_content.make 1 "Look, nobody reads the manual." "sales"
    (Some "email"%string) None None None None (Some 5%Z)
    (Some opposite_vector) None None.

Definition aligned_row : human_content.row :=
  human_content.make 2 "Here is the deal: it works." "sales"
    (Some "landing page"%string) None None None None (Some 6%Z)
    (Some unit_vector) None None.

Definition news_row : human_content.row :=
  human_content.make 3 "The council voted late on Tuesday." "journalist"
    (Some "local news"%string) None None None None (Some 6%Z)
    (Some unit_vector) None None.

Definition unindexed_row : human_content.row :=
  human_content.make 4 "Try it free for a month." "sales"
    None None None None None None None None None.

Definition sample_table : list human_content.row :=
  [unindexed_row; opposite_row; news_row; aligned_row].

End Schema.

(* ================================================================== *)
(** ** The humanisation orchestrator *)
(* ================================================================== *)

(** The back end ([orchestrator.py] and the agents it drives) is not among
    the sources. Every definition of this module is written from the design
    document and names the section it follows. Texts are sequences of
    characters, scores are rationals in place of floats, and cancellation and
    time-outs are left out: a call that times out is a call that fails. *)
Module Orchestrator.
Import Api.

(** Modelled from the spec: TransformRequest [{input_text, mode}] and
    TransformResult [{output_text, quality_score, iterations, mode,
    processing_time_ms, metrics}] of section 3, which section 6 exposes
    upward under the same field names. *)
Definition TransformRequest := HumaniseRequest.t.
Definition TransformResult := HumaniseResponse.t.

(** Modelled from the spec: Exemplar of section 3. *)
Record Exemplar := {
  content : jsstring;
  content_type : Mode;
  topic : option jsstring;
  similarity : Q
}.

(** Modelled from the spec: IterationRecord of section 3. *)
Record IterationRecord := {
  iteration_index : nat;
  output_text : jsstring;
  quality_score : Q;
  metrics : QualityMetrics
}.

(** Modelled from the spec: the feedback of section 4.3, "which
    QualityMetrics fell short and by how much", as the score and metrics of
    the iteration it comes from and the distance to the threshold. *)
Record Feedback := {
  from_iteration : nat;
  shortfall : Q;
  measured : QualityMetrics
}.

(** Modelled from the spec: the error taxonomy of section 7, without
    CancellationError (no caller cancels here) and without the two
    conditions the orchestrator absorbs. *)
Inductive Error := ValidationError | PipelineError.

(** Modelled from the spec: the terminal states of section 4.5. *)
Inductive Terminal := Accepted | Exhausted.

(** Modelled from the spec: the configuration surface of section 6. *)
Record Config := {
  quality_threshold : Q;
  max_iterations : nat;
  exemplar_count : nat
}.

(** Modelled from the spec: the defaults of section 6. *)
Definition default_config : Config :=
  {| quality_threshold := 75 # 100; max_iterations := 3;
     exemplar_count := 5 |}.

(** Modelled from the spec: what a completed request leaves behind, the
    result handed to the caller together with the append-only record
    sequence and the terminal state reached. *)
Record Completed := {
  result : TransformResult;
  records : list IterationRecord;
  terminal : Terminal
}.

Section Pipeline.

Variable config : Config.

(** Modelled from the spec: the vector retrieval provider of section 6;
    [None] is a provider that is unreachable or fails. *)
Variable search : jsstring -> Mode -> nat -> option (list Exemplar).

(** Modelled from the spec: the built-in curated exemplars of section 4.2,
    "never empty": a first exemplar and the rest, per mode. *)
Variable curated : Mode -> Exemplar * list Exemplar.

(** Modelled from the spec: the generation provider of section 6. It is no
    function of its arguments alone, so the number of the attempt stands for
    whatever else it depends on; [None] is a call that fails or times out. *)
Variable generate :
  nat -> jsstring -> Mode -> list Exemplar -> option Feedback -> option jsstring.

(** Modelled from the spec: QualityScorer.score of section 4.4, from a text
    to its quality score and metrics. *)
Variable score : jsstring -> Q * QualityMetrics.

(** Modelled from the spec: the wall-clock time from Start to the terminal
    state, section 4.5 step 3. *)
Variable elapsed_ms : Z.

(** Modelled from the spec: ExemplarStore.retrieve of section 4.2. The
    primary path hands on the provider's ranked rows; when the provider
    fails or has no row, the curated set of the mode is returned. *)
Definition retrieve (mode : Mode) (topic_hint : jsstring) (k : nat)
  : list Exemplar :=
  match search topic_hint mode k with
  | Some (first :: rest) => first :: rest
  | Some [] | None => fst (curated mode) :: snd (curated mode)
  end.

(** Modelled from the spec: StyleRewriter.rewrite of section 4.3; a failed
    call and empty content are both a GenerationError, here [None]. *)
Definition rewrite (attempt : nat) (input_text : jsstring) (mode : Mode)
    (exemplars : list Exemplar) (feedback : option Feedback)
  : option jsstring :=
  match generate attempt input_text mode exemplars feedback with
  | Some (c :: text) => Some (c :: text)
  | Some [] | None => None
  end.

(** Modelled from the spec: the feedback drawn from an iteration that fell
    short of the threshold. *)
Definition feedback_from (record : IterationRecord) : Feedback :=
  {| from_iteration := iteration_index record;
     shortfall := quality_threshold config - quality_score record;
     measured := metrics record |}.

Section Iterate.

Variable request : TransformRequest.
Variable exemplars : list Exemplar.

(** Modelled from the spec: step 2 of section 4.5, from iteration [i] with
    [remaining] iterations still permitted. A GenerationError uses up the
    iteration and appends nothing; a success appends a record, and the loop
    stops Accepted at the first score that reaches the threshold and
    Exhausted when no iteration is left. *)
Fixpoint iterate (remaining i : nat) (records : list IterationRecord)
    (feedback : option Feedback) : Terminal * list IterationRecord :=
  match remaining with
  | O => (Exhausted, records)
  | S remaining' =>
      match rewrite i (HumaniseRequest.input_text request)
                    (HumaniseRequest.mode request) exemplars feedback with
      | None => iterate remaining' (S i) records None
      | Some output =>
          let record :=
            {| iteration_index := i; output_text := output;
               quality_score := fst (score output);
               metrics := snd (score output) |} in
          if Qle_bool (quality_threshold config) (quality_score record)
          then (Accepted, records ++ [record])
          else iterate remaining' (S i) (records ++ [record])
                       (Some (feedback_from record))
      end
  end.

End Iterate.

(** Modelled from the spec: the tie-break policy of section 4.5; a later
    record replaces the best seen so far only with a strictly higher
    score. *)
Definition better (champion challenger : IterationRecord) : IterationRecord :=
  if Qle_bool (quality_score challenger) (quality_score champion)
  then champion else challenger.

(** Modelled from the spec: "the IterationRecord with the highest
    quality_score seen across all iterations", kept in an accumulator of
    the best-seen record (section 9). *)
Definition best (records : list IterationRecord) : option IterationRecord :=
  match records with
  | [] => None
  | first :: rest => Some (fold_left better rest first)
  end.

Fixpoint last_record (records : list IterationRecord)
  : option IterationRecord :=
  match records with
  | [] => None
  | [record] => Some record
  | _ :: rest => last_record rest
  end.

(** Modelled from the spec: the winning record, section 4.5: the record
    that met the threshold when Accepted, the best one when Exhausted. *)
Definition winner (state : Terminal) (records : list IterationRecord)
  : option IterationRecord :=
  match state with
  | Accepted => last_record records
  | Exhausted => best records
  end.

(** A record that did not reach the threshold. *)
Definition below (record : IterationRecord) : Prop :=
  (quality_score record < quality_threshold config)%Q.

(** Modelled from the spec: the preconditions of a TransformRequest,
    section 3: a text that is not empty and has at least 20 characters. (An
    invalid mode is no value of [Mode].) *)
Definition valid (request : TransformRequest) : bool :=
  negb (Js.falsy (HumaniseRequest.input_text request))
  && (20 <=? List.length (HumaniseRequest.input_text request)).

(** Modelled from the spec: the orchestrator, section 4.5: validate,
    retrieve once, iterate, and build the result from the winning record;
    [iterations] is the length of the record sequence (the invariant of
    section 3), and a request without a single record is a PipelineError. *)
Definition transform (request : TransformRequest) : Error + Completed :=
  if valid request then
    let exemplars :=
      retrieve (HumaniseRequest.mode request)
               (HumaniseRequest.input_text request) (exemplar_count config) in
    let (state, records) :=
      iterate request exemplars (max_iterations config) 1 [] None in
    match winner state records with
    | None => inl PipelineError
    | Some record =>
        inr {| result :=
                 HumaniseResponse.make
                   (output_text record) (quality_score record)
                   (Z.of_nat (List.length records))
                   (HumaniseRequest.mode request) elapsed_ms
                   (metrics record);
               records := records;
               terminal := state |}
    end
  else inl ValidationError.

End Pipeline.

(** *** Scenarios of section 8 *)

Definition sample_request : TransformRequest :=
  HumaniseRequest.make
    (Js.lit "Furthermore, it is important to note that our product offers exceptional value.")
    sales.

Definition sample_exemplar : Exemplar :=
  {| content := Js.lit "Look, nobody reads the manual.";
     content_type := sales; topic := None; similarity := 1 |}.

Definition sample_curated (mode : Mode) : Exemplar * list Exemplar :=
  (sample_exemplar, []).

(** A retrieval provider that always errors. *)
Definition search_down (_ : jsstring) (_ : Mode) (_ : nat)
  : option (list Exemplar) := None.

(** A generation provider whose [n]-th attempt returns the text "draft n". *)
Definition drafts (attempt : nat) (_ : jsstring) (_ : Mode)
    (_ : list Exemplar) (_ : option Feedback) : option jsstring :=
  Some (Js.lit "draft " ++ Js.ofInt (Z.of_nat attempt))%list.

Definition no_metrics : QualityMetrics :=
  {| burstiness := 0; lexical_diversity := 0; contraction_ratio := 0;
     word_count := 2; sentence_count := 1 |}.

(** A scorer that gives draft [n] the [n]-th score of a list. *)
Definition score_drafts (scores : list Q) (text : jsstring)
  : Q * QualityMetrics :=
  let fix find (n : nat) (rest : list Q) : Q :=
    match rest with
    | [] => 0
    | q :: rest' =>
        if list_eq_dec N.eq_dec text
             (Js.lit "draft " ++ Js.ofInt (Z.of_nat n))%list
        then q else find (S n) rest'
    end in
  (find 1%nat scores, no_metrics).

Definition strict_config : Config :=
  {| quality_threshold := 8 # 10; max_iterations := 3; exemplar_count := 5 |}.

(** Scores 0.5, 0.7, 0.7 under threshold 0.8. *)
Definition tie_break_run : Error + Completed :=
  transform strict_config search_down sample_curated drafts
            (score_drafts [1 # 2; 7 # 10; 7 # 10]) 1200 sample_request.

End Orchestrator.

(* ================================================================== *)
(** ** Handlers in flight *)
(* ================================================================== *)

Section Suspended.

Variables Cmd Req Resp Store : Type.
Variable exec : Cmd -> Store -> Store.

(** The component state at the moment the handler suspends at its [await],
    if it gets there: what every render shows while the request is in
    flight. *)
Fixpoint suspended (h : handler Cmd Req Resp) (st : Store) : option Store :=
  match h with
  | Return => None
  | Perform c k => suspended k (exec c st)
  | Await _ _ => Some st
  end.

End Suspended.

(* ================================================================== *)
(** ** Words and bare strings *)
(* ================================================================== *)

(** Reference notions the components are compared with. *)
Module Text.

(** The number of maximal runs of characters that are not white space, read
    left to right; [in_word] says whether the character before was part of
    such a run. *)
Fixpoint words_from (in_word : bool) (s : jsstring) : nat :=
  match s with
  | [] => 0
  | c :: r =>
      if Js.isWhiteSpace c then words_from false r
      else (if in_word then 0 else 1) + words_from true r
  end.

Definition starts_bare (s : jsstring) : Prop :=
  match s with
  | c :: _ => Js.isWhiteSpace c = false
  | [] => True
  end.

(** A string with no white space at either end. *)
Definition bare (s : jsstring) : Prop :=
  starts_bare s /\ starts_bare (rev s).

End Text.

(* ================================================================== *)
(** ** [components/humaniser-form.tsx] *)
(* ================================================================== *)

Module HumaniserForm.

(** [inputText.trim().split(/\s+/).filter(Boolean).length] *)
Definition wordCount (inputText : jsstring) : nat :=
  List.length
    (filter (fun piece => negb (Js.falsy piece))
            (Display.split_ws false [] (Js.trim inputText))).

Definition charCount (inputText : jsstring) : nat := List.length inputText.

(** The [disabled] prop of the submit button. *)
Definition submitDisabled (isLoading : bool) (inputText : jsstring) : bool :=
  isLoading || Js.falsy (Js.trim inputText)
  || (List.length (Js.trim inputText) <? 20).

(** The [disabled] prop of the Clear button. *)
Definition clearDisabled (isLoading : bool) (inputText : jsstring) : bool :=
  isLoading || Js.falsy inputText.

End HumaniserForm.

(* ================================================================== *)
(** ** [app/page.tsx]: what [Home] shows of the hook state *)
(* ================================================================== *)

Module Page.
Import UseHumaniser.

(** [!!s] for a string or [null]. *)
Definition truthy (s : option jsstring) : bool :=
  match s with
  | Some text => negb (Js.falsy text)
  | None => false
  end.

(** [{error && !result && (...)}]: the error panel. *)
Definition showsError (st : UseHumaniserState) : bool :=
  truthy (error st) && match result st with None => true | Some _ => false end.

(** [{result && (...)}]: the results grid. *)
Definition showsResults (st : UseHumaniserState) : bool :=
  match result st with Some _ => true | None => false end.

(** The props [Home] hands to [HumaniserForm]. *)
Definition submitDisabled (st : UseHumaniserState) : bool :=
  HumaniserForm.submitDisabled (isLoading st) (inputText st).

Definition clearDisabled (st : UseHumaniserState) : bool :=
  HumaniserForm.clearDisabled (isLoading st) (inputText st).

End Page.

(* ================================================================== *)
(** ** [components/output-display.tsx]: score colours *)
(* ================================================================== *)

Module OutputDisplay.

Definition getScoreColor (score : Q) : string :=
  if Qle_bool (8 # 10) score then "text-green-600 dark:text-green-400"
  else if Qle_bool (6 # 10) score then "text-yellow-600 dark:text-yellow-400"
  else "text-red-600 dark:text-red-400".

(** Better badges rank higher. *)
Definition badge_rank (b : Display.badge) : nat :=
  match b with
  | Display.badge_destructive => 0
  | Display.badge_secondary => 1
  | Display.badge_default => 2
  end.

Definition colour_rank (c : Display.progress_colour) : nat :=
  match c with
  | Display.red => 0
  | Display.yellow => 1
  | Display.green => 2
  end.

Definition verdict_rank (v : Display.verdict) : nat :=
  match v with
  | Display.Needs_improvement => 0
  | Display.Good => 1
  | Display.Excellent => 2
  end.

End OutputDisplay.

(* ================================================================== *)
(** ** [components/url-scraper-form.tsx]: the buttons *)
(* ================================================================== *)

Module ScraperButtons.
Import UrlScraperForm.

(** [{!isLoading && (url || description) && (<Button ...>Clear</Button>)}] *)
Definition clearVisible (st : FormState) : bool :=
  negb (isLoading st)
  && (negb (Js.falsy (url st)) || negb (Js.falsy (description st))).

(** The [disabled] prop of the submit button and of the three inputs. *)
Definition submitDisabled (st : FormState) : bool := isLoading st.

(** A click on Clear: the setters of [handleReset], in order. *)
Definition clickClear (st : FormState) : FormState :=
  fold_left (fun acc c => exec c acc) handleReset st.

(** The render after a request was sent: the form filled with what the
    request carried. *)
Definition refilled (st : FormState) (request : Api.ScrapeRequest.t)
  : FormState :=
  {| url := Api.ScrapeRequest.url request;
     contentType := Api.ScrapeRequest.content_type request;
     description := Api.ScrapeRequest.description request;
     isLoading := isLoading st;
     result := result st |}.

End ScraperButtons.

(* ================================================================== *)
(** ** More scenarios *)
(* ================================================================== *)

Definition sample_response : Api.HumaniseResponse.t :=
  Api.HumaniseResponse.make
    (Js.lit "Look, our product is worth every penny. Really.")
    (82 # 100) 2 Api.sales 1840
    {| Api.burstiness := 55 # 100; Api.lexical_diversity := 9 # 10;
       Api.contraction_ratio := 0; Api.word_count := 9;
       Api.sentence_count := 2 |}.

Definition answering_backend (_ : Api.HumaniseRequest.t)
  : Js.settled Api.HumaniseResponse.t :=
  Js.Fulfilled sample_response.

(** A result on screen and five characters in the text box. *)
Definition shown_state : UseHumaniser.UseHumaniserState :=
  {| UseHumaniser.inputText := Js.lit "hello";
     UseHumaniser.mode := Api.sales;
     UseHumaniser.isLoading := false;
     UseHumaniser.error := None;
     UseHumaniser.result := Some sample_response |}.

Definition space : Js.code_unit := 32%N.

(* ================================================================== *)
(** * Facts *)
(* ================================================================== *)

(* ================================================================== *)
(** ** Facts about JavaScript strings *)
(* ================================================================== *)

Lemma trimStart_length (s : jsstring) :
  (List.length (Js.trimStart s) <= List.length s)%nat.
Proof.
  induction s as [|c r IH]; simpl; [lia|].
  destruct (Js.isWhiteSpace c); simpl; lia.
Qed.

Lemma trimEnd_length (s : jsstring) :
  (List.length (Js.trimEnd s) <= List.length s)%nat.
Proof.
  unfold Js.trimEnd. rewrite length_rev.
  pose proof (trimStart_length (rev s)) as H.
  now rewrite length_rev in H.
Qed.

Lemma trim_length (s : jsstring) :
  (List.length (Js.trim s) <= List.length s)%nat.
Proof.
  unfold Js.trim.
  pose proof (trimEnd_length (Js.trimStart s)).
  pose proof (trimStart_length s). lia.
Qed.

Lemma falsy_iff_nil (s : jsstring) : Js.falsy s = true <-> s = [].
Proof. destruct s; simpl; split; congruence. Qed.

Lemma falsy_length (s : jsstring) :
  Js.falsy s = true -> List.length s = 0%nat.
Proof. intros H. apply falsy_iff_nil in H. now subst. Qed.

Lemma truthy_length (s : jsstring) :
  Js.falsy s = false -> (1 <= List.length s)%nat.
Proof. destruct s; simpl; [discriminate | lia]. Qed.

(* ================================================================== *)
(** ** The humanise hook *)
(* ================================================================== *)

Section HumaniseFacts.
Import Api UseHumaniser.

Variable backend : HumaniseRequest.t -> Js.settled HumaniseResponse.t.
Variable meanwhile : UseHumaniserState -> UseHumaniserState.

(** Split on the two validation tests of [humanise]. *)
Ltac humanise_tests state :=
  unfold submit, humanise;
  destruct (Js.falsy (Js.trim (inputText state))) eqn:Hempty;
  [ apply falsy_length in Hempty
  | apply truthy_length in Hempty;
    destruct (List.length (Js.trim (inputText state)) <? 20) eqn:Hshort;
    [ apply Nat.ltb_lt in Hshort | apply Nat.ltb_ge in Hshort ] ].

(** C1. A request whose input text is empty or shorter than 20 characters is
    turned down on the spot: [humanise] puts a validation message in [error],
    shows it in a destructive toast titled Validation Error, leaves the rest of
    the state alone, and never calls the back end (so retrieval, generation
    and scoring, which only the back end reaches, are not invoked at all). *)
Theorem humanise_short_input_validation_error :
  forall state store : UseHumaniserState,
    inputText state = [] \/ (List.length (inputText state) < 20)%nat ->
    let (store', log) := submit backend meanwhile state store in
    requests log = [] /\
    (exists msg,
        error store' = Some msg /\
        commands log =
          [withError msg; toast (Toast "Validation Error" msg destructive)]) /\
    inputText store' = inputText store /\ mode store' = mode store /\
    isLoading store' = isLoading store /\ result store' = result store.
Proof.
  intros state store Hin.
  assert (Hlen : (List.length (Js.trim (inputText state)) < 20)%nat).
  { pose proof (trim_length (inputText state)).
    destruct Hin as [-> | Hlt]; simpl in *; lia. }
  humanise_tests state; simpl.
  - repeat split; trivial. eexists; split; reflexivity.
  - repeat split; trivial. eexists; split; reflexivity.
  - lia.
Qed.

(** C8. The hook sends a request exactly when the trimmed input has at least
    20 characters, and the request then carries the input as typed, untrimmed;
    so the text of every request sent has trimmed length at least 20, and
    with it raw length at least 20. *)
Theorem humanise_request_trimmed_length :
  forall state store : UseHumaniserState,
    let sent := requests (snd (submit backend meanwhile state store)) in
    sent =
      (if 20 <=? List.length (Js.trim (inputText state))
       then [HumaniseRequest.make (inputText state) (mode state)]
       else []) /\
    (forall request, In request sent ->
       HumaniseRequest.input_text request = inputText state /\
       (20 <= List.length (Js.trim (HumaniseRequest.input_text request)))%nat /\
       (20 <= List.length (HumaniseRequest.input_text request))%nat).
Proof.
  intros state store; cbv zeta.
  assert (Hsent :
    requests (snd (submit backend meanwhile state store)) =
      (if 20 <=? List.length (Js.trim (inputText state))
       then [HumaniseRequest.make (inputText state) (mode state)]
       else [])).
  { destruct (Nat.leb_spec 20 (List.length (Js.trim (inputText state))));
      humanise_tests state; try lia; simpl; trivial.
    destruct (backend _); reflexivity. }
  split; [exact Hsent|].
  intros request Hreq. rewrite Hsent in Hreq.
  destruct (Nat.leb_spec 20 (List.length (Js.trim (inputText state))))
    as [Hge | Hlt]; [|contradiction].
  destruct Hreq as [<- | []]; simpl.
  pose proof (trim_length (inputText state)). repeat split; trivial; lia.
Qed.

(** C9. Once a request that passed validation has settled, the state holds
    the response and no error when the back end answered, and the error
    message and no result when it failed; in both cases loading is over. So
    exactly one of [result] and [error] is set, whatever else happened to the
    state while the request was in flight. *)
Theorem humanise_settles_result_xor_error :
  forall state store : UseHumaniserState,
    (20 <= List.length (Js.trim (inputText state)))%nat ->
    let store' := fst (submit backend meanwhile state store) in
    isLoading store' = false /\
    match backend (HumaniseRequest.make (inputText state) (mode state)) with
    | Js.Fulfilled response =>
        result store' = Some response /\ error store' = None
    | Js.Rejected reason =>
        result store' = None /\ error store' = Some (errorMessageOf reason)
    end /\
    ((exists response, result store' = Some response /\ error store' = None)
     \/ (exists msg, error store' = Some msg /\ result store' = None)).
Proof.
  intros state store Hvalid; cbv zeta.
  humanise_tests state; try lia; simpl.
  destruct (backend _) as [response | reason]; simpl.
  - repeat split; trivial. left; eexists; split; reflexivity.
  - repeat split; trivial. right; eexists; split; reflexivity.
Qed.

End HumaniseFacts.

Lemma humanise_short_input_witness :
  (List.length (UseHumaniser.inputText hello_state) < 20)%nat /\
  let (store', log) :=
    UseHumaniser.submit failing_backend (fun st => st) hello_state hello_state in
  requests log = [] /\
  (exists msg,
      UseHumaniser.error store' = Some msg /\
      commands log =
        [UseHumaniser.withError msg;
         UseHumaniser.toast (Toast "Validation Error" msg destructive)]) /\
  UseHumaniser.inputText store' = UseHumaniser.inputText hello_state /\
  UseHumaniser.mode store' = UseHumaniser.mode hello_state /\
  UseHumaniser.isLoading store' = UseHumaniser.isLoading hello_state /\
  UseHumaniser.result store' = UseHumaniser.result hello_state.
Proof.
  assert (H : (List.length (UseHumaniser.inputText hello_state) < 20)%nat)
    by (simpl; lia).
  split; [exact H|].
  exact (humanise_short_input_validation_error failing_backend (fun st => st)
           hello_state hello_state (or_intror H)).
Defined.

(** The payload keeps the blanks the user typed. *)
Example humanise_sends_untrimmed_text :
  requests (snd (UseHumaniser.submit failing_backend (fun st => st)
                   padded_state padded_state)) =
    [Api.HumaniseRequest.make (UseHumaniser.inputText padded_state) Api.sales]
  /\ Js.trim (UseHumaniser.inputText padded_state)
       <> UseHumaniser.inputText padded_state.
Proof. split; [reflexivity | discriminate]. Qed.

Lemma humanise_settles_witness :
  (20 <= List.length (Js.trim (UseHumaniser.inputText padded_state)))%nat /\
  UseHumaniser.error
    (fst (UseHumaniser.submit failing_backend (fun st => st)
            padded_state padded_state))
  = Some (Js.lit "Failed to fetch") /\
  UseHumaniser.result
    (fst (UseHumaniser.submit failing_backend (fun st => st)
            padded_state padded_state))
  = None.
Proof.
  assert (H : (20 <= List.length
                       (Js.trim (UseHumaniser.inputText padded_state)))%nat)
    by (apply Nat.leb_le; vm_compute; reflexivity).
  split; [exact H|].
  pose proof (humanise_settles_result_xor_error failing_backend (fun st => st)
                padded_state padded_state H) as [_ [Hsettled _]].
  simpl in Hsettled. destruct Hsettled as [Hres Herr].
  split; assumption.
Defined.

Lemma humanise_request_witness :
  let sent :=
    requests (snd (UseHumaniser.submit failing_backend (fun st => st)
                     padded_state padded_state)) in
  sent = [Api.HumaniseRequest.make (UseHumaniser.inputText padded_state)
                                   Api.sales] /\
  Forall (fun request =>
            (20 <= List.length
                     (Js.trim (Api.HumaniseRequest.input_text request)))%nat)
         sent.
Proof.
  cbv zeta.
  pose proof (humanise_request_trimmed_length failing_backend (fun st => st)
                padded_state padded_state) as [Hsent Hall].
  split; [exact Hsent|].
  apply Forall_forall. intros request Hreq. now apply Hall.
Defined.

(* ================================================================== *)
(** ** The URL scraper form *)
(* ================================================================== *)

Section ScraperFacts.
Import Api UrlScraperForm.

Variable backend : ScrapeRequest.t -> Js.settled ScrapeResponse.t.
Variable meanwhile : FormState -> FormState.

(** Split on the two validation tests of [handleSubmit]. *)
Ltac handleSubmit_tests state :=
  unfold submit, handleSubmit;
  destruct (Js.falsy (Js.trim (url state))) eqn:Hurl;
  [ | destruct (Js.falsy (Js.trim (description state))) eqn:Hdesc;
      [ | destruct (List.length (Js.trim (description state)) <? 5) eqn:Hshort;
          [ apply Nat.ltb_lt in Hshort | apply Nat.ltb_ge in Hshort ] ] ].

(** C10. The form sends a scrape-and-index request only when the trimmed URL
    is not empty and the trimmed description has at least 5 characters, and
    the request carries both trimmed (with the selected content type); when
    either test fails, nothing is sent and the form state stays as it was. *)
Theorem handleSubmit_validates_before_request :
  forall state store : FormState,
    let (store', log) := submit backend meanwhile state store in
    (forall request, In request (requests log) ->
       Js.trim (url state) <> [] /\
       (5 <= List.length (Js.trim (description state)))%nat /\
       ScrapeRequest.url request = Js.trim (url state) /\
       ScrapeRequest.description request = Js.trim (description state) /\
       ScrapeRequest.content_type request = contentType state) /\
    (Js.trim (url state) = [] \/
     (List.length (Js.trim (description state)) < 5)%nat ->
     requests log = [] /\ store' = store).
Proof.
  intros state store.
  handleSubmit_tests state; simpl.
  - split; [intros ? [] | intros _; split; reflexivity].
  - split; [intros ? [] | intros _; split; reflexivity].
  - split; [intros ? [] | intros _; split; reflexivity].
  - destruct (backend _) as [response | reason]; simpl;
      (split;
       [ intros request [<- | []]; simpl; repeat split; trivial;
         intros Hnil; rewrite Hnil in Hurl; discriminate
       | intros [Hnil | Hlt]; [rewrite Hnil in Hurl; discriminate | lia] ]).
Qed.

(** With both tests passed exactly one request goes out. *)
Lemma handleSubmit_sends_when_valid :
  forall state store : FormState,
    Js.trim (url state) <> [] ->
    (5 <= List.length (Js.trim (description state)))%nat ->
    requests (snd (submit backend meanwhile state store)) =
      [ScrapeRequest.make (Js.trim (url state)) (contentType state)
                          (Js.trim (description state))].
Proof.
  intros state store Hurl' Hlen.
  handleSubmit_tests state; simpl.
  - apply falsy_iff_nil in Hurl. contradiction.
  - apply falsy_length in Hdesc. lia.
  - lia.
  - destruct (backend _); reflexivity.
Qed.

End ScraperFacts.

Lemma handleSubmit_validation_witness :
  Js.trim (UrlScraperForm.url blank_form) = [] /\
  requests (snd (UrlScraperForm.submit failing_scraper (fun st => st)
                   blank_form blank_form)) = [] /\
  fst (UrlScraperForm.submit failing_scraper (fun st => st)
         blank_form blank_form) = blank_form.
Proof.
  assert (Hblank : Js.trim (UrlScraperForm.url blank_form) = [])
    by reflexivity.
  split; [exact Hblank|].
  pose proof (handleSubmit_validates_before_request failing_scraper
                (fun st => st) blank_form blank_form) as H.
  destruct (UrlScraperForm.submit failing_scraper (fun st => st)
              blank_form blank_form) as [store' log].
  destruct H as [_ H]. exact (H (or_introl Hblank)).
Defined.

(** A filled-in form sends both fields trimmed. *)
Example handleSubmit_sends_trimmed :
  requests (snd (UrlScraperForm.submit failing_scraper (fun st => st)
                   padded_form padded_form))
    = [Api.ScrapeRequest.make (Js.lit "https://example.com/article")
         Api.journalist (Js.lit "Tech news about data breach")].
Proof. reflexivity. Qed.

(* ================================================================== *)
(** ** Sorting *)
(* ================================================================== *)

Section OrderByFacts.

Variable A : Type.
Variable le : A -> A -> bool.

Hypothesis le_total : forall x y, le x y = true \/ le y x = true.
Hypothesis le_trans :
  forall x y z, le x y = true -> le y z = true -> le x z = true.

Lemma insert_by_In (x y : A) (l : list A) :
  In y (insert_by le x l) <-> y = x \/ In y l.
Proof.
  induction l as [|z l IH]; simpl.
  - intuition congruence.
  - destruct (le x z); simpl; rewrite ?IH; intuition congruence.
Qed.

Lemma order_by_In (y : A) (l : list A) : In y (order_by le l) <-> In y l.
Proof.
  induction l as [|x l IH]; simpl; [tauto|].
  rewrite insert_by_In, IH. intuition congruence.
Qed.

Lemma insert_by_length (x : A) (l : list A) :
  List.length (insert_by le x l) = S (List.length l).
Proof.
  induction l as [|z l IH]; simpl; trivial.
  destruct (le x z); simpl; congruence.
Qed.

Lemma order_by_length (l : list A) :
  List.length (order_by le l) = List.length l.
Proof.
  induction l as [|x l IH]; simpl; trivial.
  rewrite insert_by_length. congruence.
Qed.

Lemma insert_by_sorted (x : A) (l : list A) :
  StronglySorted (fun a b => le a b = true) l ->
  StronglySorted (fun a b => le a b = true) (insert_by le x l).
Proof.
  induction 1 as [|z l Hsorted IH Hall]; simpl.
  - repeat constructor.
  - destruct (le x z) eqn:Hxz.
    + constructor; [constructor; assumption|].
      constructor; [assumption|].
      rewrite Forall_forall in *. intros b Hb. eauto.
    + constructor; [assumption|].
      rewrite Forall_forall in *. intros b Hb.
      apply insert_by_In in Hb. destruct Hb as [-> | Hb]; [|auto].
      destruct (le_total x z) as [H | H]; [congruence | exact H].
Qed.

Lemma order_by_sorted (l : list A) :
  StronglySorted (fun a b => le a b = true) (order_by le l).
Proof.
  induction l as [|x l IH]; simpl; [constructor|].
  now apply insert_by_sorted.
Qed.

End OrderByFacts.

Lemma StronglySorted_firstn {A} (R : A -> A -> Prop) (n : nat) (l : list A) :
  StronglySorted R l -> StronglySorted R (firstn n l).
Proof.
  intros H. revert n. induction H as [|x l Hs IH Hall]; intros [|n]; simpl;
    try constructor; auto.
  rewrite Forall_forall in *. intros y Hy. apply Hall.
  rewrite <- (firstn_skipn n l). apply in_or_app. now left.
Qed.

Lemma StronglySorted_map {A B} (R : B -> B -> Prop) (f : A -> B) (l : list A) :
  StronglySorted (fun x y => R (f x) (f y)) l -> StronglySorted R (map f l).
Proof.
  induction 1 as [|x l Hs IH Hall]; simpl; constructor; trivial.
  rewrite Forall_forall in *. intros y Hy.
  apply in_map_iff in Hy. destruct Hy as [a [<- Ha]]. auto.
Qed.

Lemma StronglySorted_weaken {A} (R S : A -> A -> Prop) (l : list A) :
  (forall x y, R x y -> S x y) -> StronglySorted R l -> StronglySorted S l.
Proof.
  intros HRS. induction 1 as [|x l Hs IH Hall]; constructor; trivial.
  eapply Forall_impl; [|exact Hall]. auto.
Qed.

(* ================================================================== *)
(** ** [match_human_content] *)
(* ================================================================== *)

Section SchemaFacts.
Import Schema.
Local Open Scope R_scope.

Lemma key_le_total (x y : option float8) :
  key_le x y = true \/ key_le y x = true.
Proof.
  destruct x as [[a|]|], y as [[b|]|]; simpl; auto.
  destruct (Rle_dec a b), (Rle_dec b a); auto. lra.
Qed.

Lemma key_le_trans (x y z : option float8) :
  key_le x y = true -> key_le y z = true -> key_le x z = true.
Proof.
  destruct x as [[a|]|], y as [[b|]|], z as [[c|]|]; simpl;
    try congruence.
  destruct (Rle_dec a b), (Rle_dec b c), (Rle_dec a c);
    try congruence; lra.
Qed.

(** Ascending distance is descending similarity. *)
Lemma key_le_similarity_ge (d1 d2 : option float8) :
  key_le d1 d2 = true -> similarity_ge (one_minus d1) (one_minus d2).
Proof.
  destruct d1 as [[a|]|], d2 as [[b|]|]; simpl; try congruence; trivial.
  destruct (Rle_dec a b); [lra | congruence].
Qed.

(** The distance pgvector returns is within [0, 2] when it is a number. *)
Lemma cosine_distance_range (a b : vector) (d : R) :
  cosine_distance a b = Ok (Finite d) -> 0 <= d <= 2.
Proof.
  unfold cosine_distance.
  destruct (negb _); [discriminate|].
  destruct (Req_dec_T _ 0); [discriminate|].
  destruct (Rlt_dec 1 _); [intros [= <-]; lra|].
  destruct (Rlt_dec _ (-1)); intros [= <-]; lra.
Qed.

(** With the dimensions the column type fixes, the operator never raises. *)
Lemma cosine_op_typed (a b : option vector) :
  has_dimensions a -> has_dimensions b -> exists d, cosine_op a b = Ok d.
Proof.
  destruct a as [x|], b as [y|]; simpl; intros Hx Hy; eauto.
  unfold cosine_distance. rewrite Hx, Hy, Nat.eqb_refl. simpl.
  destruct (Req_dec_T _ 0); simpl; eauto.
Qed.

Lemma for_each_typed {A B} (f : A -> sql B) (rows : list A) :
  Forall (fun r => exists b, f r = Ok b) rows ->
  exists bs, for_each f rows = Ok bs.
Proof.
  induction 1 as [|r rows [b Hb] _ [bs Hbs]]; simpl; eauto.
  rewrite Hb, Hbs. simpl. eauto.
Qed.

Lemma for_each_In {A B} (f : A -> sql B) (rows : list A) (bs : list B) :
  for_each f rows = Ok bs ->
  forall b, In b bs -> exists r, In r rows /\ f r = Ok b.
Proof.
  revert bs. induction rows as [|r rows IH]; simpl; intros bs.
  - intros [= <-] b [].
  - destruct (f r) as [b0|] eqn:Hr; simpl; [|discriminate].
    destruct (for_each f rows) as [bs0|]; simpl; [|discriminate].
    intros [= <-] b [<- | Hb]; [eauto|].
    destruct (IH bs0 eq_refl b Hb) as [r' [Hin Hf]]. eauto.
Qed.

Lemma limit_In {A} (count : option nat) (rows : list A) (x : A) :
  In x (limit count rows) -> In x rows.
Proof.
  destruct count as [n|]; simpl; trivial.
  intros Hx. rewrite <- (firstn_skipn n rows). apply in_or_app. now left.
Qed.

Lemma where_clause_content_type (mode : string) (h : human_content.row) :
  where_clause (Some mode) h = true -> human_content.content_type h = mode.
Proof. unfold where_clause. apply String.eqb_eq. Qed.

Lemma match_human_content_rows (table : list human_content.row)
    (q : option vector) (match_count : option Z) (wanted : option string)
    (rows : list matched.row) :
  match_human_content table q match_count wanted = Ok rows ->
  Forall (row_of table q wanted) rows.
Proof.
  unfold match_human_content.
  destruct (limit_count match_count) as [count|]; simpl; [|discriminate].
  destruct (for_each _ _) as [selected|] eqn:Hscan; simpl; [|discriminate].
  intros [= <-]. apply Forall_forall. intros r Hr.
  apply in_map_iff in Hr. destruct Hr as [[d h] [<- Hin]].
  apply limit_In, order_by_In in Hin.
  destruct (for_each_In _ _ Hscan _ Hin) as [h' [Hh' Hkey]].
  unfold with_distance in Hkey.
  destruct (cosine_op _ q) as [d'|] eqn:Hd; simpl in Hkey; [|discriminate].
  injection Hkey as -> ->.
  apply filter_In in Hh'. destruct Hh' as [Htable Hwhere].
  exists h, d. auto.
Qed.

(** C2. Asked for the [k] nearest rows of one mode, with embeddings of the
    declared dimensions, [match_human_content] returns at most [k] rows,
    every one of them a row of the table with that content type, in
    descending order of similarity (rows whose similarity is not a number,
    for want of an embedding or of a direction, come last). *)
Theorem match_human_content_ranked :
  forall (table : list human_content.row) (query_embedding : option vector)
         (k : Z) (mode : string),
    (0 <= k)%Z ->
    has_dimensions query_embedding ->
    Forall (fun h => has_dimensions (human_content.embedding h)) table ->
    exists rows,
      match_human_content table query_embedding (Some k) (Some mode)
        = Ok rows /\
      (Z.of_nat (List.length rows) <= k)%Z /\
      StronglySorted similarity_ge (map matched.similarity rows) /\
      Forall (fun r => matched.content_type r = mode) rows /\
      Forall (row_of table query_embedding (Some mode)) rows.
Proof.
  intros table q k mode Hk Hq Htable.
  assert (Hrun : exists rows,
             match_human_content table q (Some k) (Some mode) = Ok rows /\
             (Z.of_nat (List.length rows) <= k)%Z /\
             StronglySorted similarity_ge (map matched.similarity rows)).
  { unfold match_human_content, limit_count.
    destruct (Z.ltb_spec k 0) as [Hneg | _]; [lia|]. simpl.
    destruct (@for_each_typed _ _ (with_distance q)
                (filter (where_clause (Some mode)) table)) as [selected ->].
    { apply Forall_forall. intros h Hh. apply filter_In in Hh.
      rewrite Forall_forall in Htable.
      destruct (@cosine_op_typed (human_content.embedding h) q) as [d Hd];
        [apply Htable; tauto | exact Hq |].
      unfold with_distance. rewrite Hd. simpl. eauto. }
    simpl. eexists. split; [reflexivity|]. split.
    - rewrite length_map.
      pose proof (firstn_le_length (Z.to_nat k)
        (order_by (fun x y => key_le (fst x) (fst y)) selected)). lia.
    - rewrite map_map. apply StronglySorted_map.
      apply StronglySorted_firstn.
      eapply StronglySorted_weaken;
        [| apply order_by_sorted;
           [ intros; apply key_le_total
           | intros x y z; apply key_le_trans ] ].
      intros [d1 h1] [d2 h2]. simpl. apply key_le_similarity_ge. }
  destruct Hrun as [rows [Hrows [Hlen Hsorted]]].
  exists rows. repeat split; trivial.
  - apply match_human_content_rows in Hrows.
    eapply Forall_impl; [|exact Hrows].
    intros r [h [d [_ [Hwhere [_ ->]]]]]. simpl.
    now apply where_clause_content_type.
  - now apply match_human_content_rows in Hrows.
Qed.

(** C3, as the code has it. The similarity of a returned row, when it is a
    number, is 1 minus a cosine distance, which pgvector keeps within
    [0, 2]; so it lies in [-1, 1], and the row it comes from has an
    embedding and was compared with a query embedding that is not NULL. *)
Theorem similarity_within_minus_one_and_one :
  forall (table : list human_content.row) (query_embedding : option vector)
         (match_count : option Z) (content_type_filter : option string)
         (rows : list matched.row) (r : matched.row) (s : R),
    match_human_content table query_embedding match_count content_type_filter
      = Ok rows ->
    In r rows ->
    matched.similarity r = Some (Finite s) ->
    -1 <= s <= 1 /\
    exists h e q,
      In h table /\ human_content.embedding h = Some e /\
      query_embedding = Some q.
Proof.
  intros table q n f rows r s Hrows Hr Hs.
  apply match_human_content_rows in Hrows.
  rewrite Forall_forall in Hrows.
  destruct (Hrows r Hr) as [h [distance [Hh [_ [Hop ->]]]]].
  simpl in Hs. unfold cosine_op in Hop.
  destruct (human_content.embedding h) as [e|] eqn:He;
    [|injection Hop as <-; discriminate].
  destruct q as [q|]; [|injection Hop as <-; discriminate].
  destruct (cosine_distance e q) as [[d|]|] eqn:Hd; simpl in Hop;
    try discriminate; injection Hop as <-; [|discriminate].
  simpl in Hs. injection Hs as <-.
  pose proof (@cosine_distance_range e q d Hd) as Hrange.
  split; [lra|].
  exists h, e, q. auto.
Qed.

Lemma inner_product_cons (x y : R) (a b : vector) :
  inner_product (x :: a) (y :: b) = x * y + inner_product a b.
Proof. reflexivity. Qed.

Lemma inner_product_zeros (n : nat) :
  inner_product (repeat 0 n) (repeat 0 n) = 0.
Proof. induction n as [|n IH]; simpl; [|rewrite IH]; lra. Qed.

Lemma cosine_distance_opposite :
  cosine_distance opposite_vector unit_vector = Ok (Finite 2).
Proof.
  unfold cosine_distance.
  change (negb (List.length opposite_vector =? List.length unit_vector)%nat)
    with false. cbv iota.
  unfold opposite_vector, unit_vector.
  rewrite !inner_product_cons, !inner_product_zeros.
  replace ((-1 * -1 + 0) * (1 * 1 + 0)) with 1 by lra.
  replace (-1 * 1 + 0) with (-1) by lra.
  rewrite sqrt_1.
  destruct (Req_dec_T 1 0); [lra|].
  replace (-1 / 1) with (-1) by lra.
  destruct (Rlt_dec 1 (-1)); [lra|].
  destruct (Rlt_dec (-1) (-1)); [lra|].
  do 2 f_equal. lra.
Qed.

Lemma cosine_distance_aligned :
  cosine_distance unit_vector unit_vector = Ok (Finite 0).
Proof.
  unfold cosine_distance. rewrite Nat.eqb_refl. cbn [negb].
  unfold unit_vector.
  rewrite !inner_product_cons, !inner_product_zeros.
  replace ((1 * 1 + 0) * (1 * 1 + 0)) with 1 by lra.
  replace (1 * 1 + 0) with 1 by lra.
  rewrite sqrt_1.
  destruct (Req_dec_T 1 0); [lra|].
  replace (1 / 1) with 1 by lra.
  destruct (Rlt_dec 1 1); [lra|].
  destruct (Rlt_dec 1 (-1)); [lra|].
  do 2 f_equal. lra.
Qed.

Lemma with_distance_opposite :
  with_distance (Some unit_vector) opposite_row
    = Ok (Some (Finite 2), opposite_row).
Proof.
  unfold with_distance.
  cbn [opposite_row human_content.embedding cosine_op].
  now rewrite cosine_distance_opposite.
Qed.

Lemma with_distance_aligned :
  with_distance (Some unit_vector) aligned_row
    = Ok (Some (Finite 0), aligned_row).
Proof.
  unfold with_distance.
  cbn [aligned_row human_content.embedding cosine_op].
  now rewrite cosine_distance_aligned.
Qed.

(** The sample table, asked for sales copy: the aligned row first, the
    opposite row second, the row without an embedding last, and the news
    row left out. *)
Example sample_table_ranking :
  match_human_content sample_table (Some unit_vector) (Some 5%Z)
                      (Some "sales"%string)
    = Ok (map select_list
              [(Some (Finite 0), aligned_row);
               (Some (Finite 2), opposite_row);
               (None, unindexed_row)]).
Proof.
  unfold match_human_content. cbn [limit_count Z.ltb Z.compare sql_bind].
  change (filter (where_clause (Some "sales"%string)) sample_table)
    with [unindexed_row; opposite_row; aligned_row].
  cbn [for_each].
  rewrite with_distance_opposite, with_distance_aligned.
  cbn [with_distance unindexed_row human_content.embedding cosine_op sql_bind
       order_by insert_by fst key_le].
  destruct (Rle_dec 2 0); [lra|]. reflexivity.
Qed.

(** A negative [match_count] is an error. *)
Example negative_match_count (table : list human_content.row)
    (q : option vector) (wanted : option string) :
  match_human_content table q (Some (-1)%Z) wanted
    = Raise "LIMIT must not be negative".
Proof. reflexivity. Qed.

(** So is a query embedding of another dimension than a stored one. *)
Example dimension_mismatch :
  match_human_content [aligned_row] (Some [1; 0]) (Some 5%Z) None
    = Raise "different vector dimensions".
Proof. reflexivity. Qed.

Lemma opposite_row_matched :
  match_human_content [opposite_row] (Some unit_vector) (Some 5%Z)
                      (Some "sales"%string)
    = Ok [select_list (Some (Finite 2), opposite_row)].
Proof.
  unfold match_human_content. cbn [limit_count Z.ltb Z.compare sql_bind].
  change (filter (where_clause (Some "sales"%string)) [opposite_row])
    with [opposite_row].
  cbn [for_each]. rewrite with_distance_opposite. reflexivity.
Qed.

Lemma opposite_row_similarity :
  matched.similarity (select_list (Some (Finite 2), opposite_row))
    = Some (Finite (-1)).
Proof. simpl. do 2 f_equal. lra. Qed.

(** C3 as stated fails: a stored embedding opposite to the query embedding
    is returned with similarity -1, which is not in [0, 1]. *)
Lemma similarity_below_zero :
  exists r,
    match_human_content [opposite_row] (Some unit_vector) (Some 5%Z)
                        (Some "sales"%string) = Ok [r] /\
    matched.similarity r = Some (Finite (-1)) /\
    ~ (0 <= -1 <= 1).
Proof.
  eexists. split; [|split].
  - exact opposite_row_matched.
  - exact opposite_row_similarity.
  - lra.
Qed.

Lemma similarity_range_witness :
  -1 <= -1 <= 1 /\
  exists h e q,
    In h [opposite_row] /\ human_content.embedding h = Some e /\
    Some unit_vector = Some q.
Proof.
  exact (@similarity_within_minus_one_and_one
           [opposite_row] (Some unit_vector) (Some 5%Z) (Some "sales"%string)
           [select_list (Some (Finite 2), opposite_row)]
           (select_list (Some (Finite 2), opposite_row)) (-1)
           opposite_row_matched (or_introl eq_refl) opposite_row_similarity).
Defined.

Lemma sample_table_dimensions :
  Forall (fun h => has_dimensions (human_content.embedding h)) sample_table.
Proof. repeat constructor. Qed.

Lemma match_human_content_ranked_witness :
  (0 <= 5)%Z /\
  has_dimensions (Some unit_vector) /\
  Forall (fun h => has_dimensions (human_content.embedding h)) sample_table /\
  exists rows,
    match_human_content sample_table (Some unit_vector) (Some 5%Z)
                        (Some "sales"%string) = Ok rows /\
    (Z.of_nat (List.length rows) <= 5)%Z /\
    StronglySorted similarity_ge (map matched.similarity rows) /\
    Forall (fun r => matched.content_type r = "sales"%string) rows /\
    Forall (row_of sample_table (Some unit_vector) (Some "sales"%string)) rows.
Proof.
  assert (Hk : (0 <= 5)%Z) by lia.
  assert (Hq : has_dimensions (Some unit_vector)) by reflexivity.
  split; [exact Hk|]. split; [exact Hq|].
  split; [exact sample_table_dimensions|].
  exact (@match_human_content_ranked sample_table (Some unit_vector) 5
           "sales"%string Hk Hq sample_table_dimensions).
Defined.

End SchemaFacts.

(* ================================================================== *)
(** ** The orchestrator *)
(* ================================================================== *)

Section OrchestratorFacts.
Import Api Orchestrator.
Local Open Scope Q_scope.

Lemma Qle_bool_false (x y : Q) : Qle_bool x y = false -> y < x.
Proof.
  intros H. apply Qnot_le_lt. intros Hle.
  apply Qle_bool_iff in Hle. congruence.
Qed.

Lemma last_record_app (before : list IterationRecord) (l : IterationRecord) :
  last_record (before ++ [l]) = Some l.
Proof.
  induction before as [|r before IH]; simpl; trivial.
  rewrite IH. destruct (before ++ [l]) eqn:E; trivial.
  destruct before; discriminate.
Qed.

(** The accumulator of [best]: with the champion somewhere in what has been
    seen, strictly above everything before it and at least as good as
    everything after it, folding over the rest keeps that shape. *)
Lemma fold_better_earliest (rest earlier mid : list IterationRecord)
    (champion : IterationRecord) :
  Forall (fun r => quality_score r < quality_score champion) earlier ->
  Forall (fun r => quality_score r <= quality_score champion) mid ->
  exists earlier' later',
    earlier ++ champion :: mid ++ rest
      = earlier' ++ fold_left better rest champion :: later' /\
    Forall (fun r => quality_score r
                     < quality_score (fold_left better rest champion))
           earlier' /\
    Forall (fun r => quality_score r
                     <= quality_score (fold_left better rest champion))
           later'.
Proof.
  revert earlier mid champion.
  induction rest as [|c rest IH]; intros earlier mid champion Hlt Hle; simpl.
  - exists earlier, mid. rewrite app_nil_r. auto.
  - unfold better at 2 4 6.
    destruct (Qle_bool (quality_score c) (quality_score champion)) eqn:Hc.
    + apply Qle_bool_iff in Hc.
      destruct (IH earlier (mid ++ [c]) champion Hlt) as [e' [l' [Heq H]]].
      { apply Forall_app. split; [exact Hle | repeat constructor; exact Hc]. }
      exists e', l'. split; [|exact H].
      rewrite <- Heq, <- app_assoc. reflexivity.
    + apply Qle_bool_false in Hc.
      destruct (IH (earlier ++ champion :: mid) [] c) as [e' [l' [Heq H]]].
      { apply Forall_app. split.
        - eapply Forall_impl; [|exact Hlt]. intros r Hr. simpl in Hr.
          eapply Qlt_trans; eauto.
        - constructor; [exact Hc|].
          eapply Forall_impl; [|exact Hle]. intros r Hr. simpl in Hr.
          eapply Qle_lt_trans; eauto. }
      { constructor. }
      exists e', l'. split; [|exact H].
      rewrite <- Heq, <- app_assoc. reflexivity.
Qed.

(** [best] picks the earliest record of maximal score. *)
Lemma best_earliest (records : list IterationRecord) (w : IterationRecord) :
  best records = Some w ->
  exists earlier later,
    records = earlier ++ w :: later /\
    Forall (fun r => quality_score r < quality_score w) earlier /\
    Forall (fun r => quality_score r <= quality_score w) later.
Proof.
  destruct records as [|first rest]; simpl; [discriminate|].
  intros [= <-].
  destruct (@fold_better_earliest rest [] [] first) as [e' [l' H]];
    try constructor.
  exists e', l'. exact H.
Qed.

Variable config : Config.
Variable search : jsstring -> Mode -> nat -> option (list Exemplar).
Variable curated : Mode -> Exemplar * list Exemplar.
Variable generate :
  nat -> jsstring -> Mode -> list Exemplar -> option Feedback -> option jsstring.
Variable score : jsstring -> Q * QualityMetrics.
Variable elapsed_ms : Z.
Variable request : TransformRequest.
Variable exemplars : list Exemplar.

(** What one run of the loop appends: at most one record per permitted
    iteration, all below the threshold except, when Accepted, the last. *)
Lemma iterate_appends (remaining i : nat) (records : list IterationRecord)
    (feedback : option Feedback) (state : Terminal)
    (records' : list IterationRecord) :
  iterate config generate score request exemplars remaining i records feedback
    = (state, records') ->
  exists new,
    records' = (records ++ new)%list /\
    (List.length new <= remaining)%nat /\
    match state with
    | Accepted =>
        exists before l,
          new = (before ++ [l])%list /\ Forall (below config) before /\
          quality_threshold config <= quality_score l
    | Exhausted => Forall (below config) new
    end.
Proof.
  revert i records feedback.
  induction remaining as [|remaining IH]; intros i records feedback; simpl.
  - intros [= <- <-]. exists []. rewrite app_nil_r.
    repeat split; trivial.
  - destruct (rewrite generate i _ _ exemplars feedback) as [output|].
    + destruct (Qle_bool _ _) eqn:Hq.
      * intros [= <- <-]. apply Qle_bool_iff in Hq.
        eexists [_]. split; [reflexivity|]. split; [simpl; lia|].
        exists [], {| iteration_index := i; output_text := output;
                      quality_score := fst (score output);
                      metrics := snd (score output) |}.
        repeat split; trivial.
      * intros Hrun. apply Qle_bool_false in Hq.
        apply IH in Hrun. destruct Hrun as [new [-> [Hlen Hstate]]].
        eexists (_ :: new). rewrite <- app_assoc. split; [reflexivity|].
        split; [simpl; lia|].
        destruct state.
        -- destruct Hstate as [before [l [-> [Hbefore Hl]]]].
           eexists (_ :: before), l. repeat split; trivial.
           constructor; trivial.
        -- constructor; trivial.
    + intros Hrun. apply IH in Hrun.
      destruct Hrun as [new [-> [Hlen Hstate]]].
      exists new. repeat split; trivial. lia.
Qed.

(** A run that leaves no record saw every rewrite fail. *)
Lemma iterate_without_record (remaining i : nat) (state : Terminal) :
  iterate config generate score request exemplars remaining i [] None
    = (state, []) ->
  forall j, (i <= j < i + remaining)%nat ->
    rewrite generate j (HumaniseRequest.input_text request)
            (HumaniseRequest.mode request) exemplars None = None.
Proof.
  revert i. induction remaining as [|remaining IH]; intros i; simpl.
  - intros _ j Hj. lia.
  - destruct (rewrite generate i _ _ exemplars None) as [output|] eqn:Hi.
    + destruct (Qle_bool _ _).
      * intros H. inversion H.
      * intros Hrun. apply iterate_appends in Hrun.
        destruct Hrun as [new [Hnew _]]. simpl in Hnew. discriminate.
    + intros Hrun j Hj.
      destruct (Nat.eq_dec j i) as [-> | Hne]; [exact Hi|].
      apply (IH (S i) Hrun). lia.
Qed.

(** A completed request, taken apart. *)
Lemma transform_completed (c : Completed) :
  transform config search curated generate score elapsed_ms request = inr c ->
  valid request = true /\
  iterate config generate score request
          (retrieve search curated (HumaniseRequest.mode request)
                    (HumaniseRequest.input_text request)
                    (exemplar_count config))
          (max_iterations config) 1 [] None
    = (terminal c, records c) /\
  exists w,
    winner (terminal c) (records c) = Some w /\
    result c =
      HumaniseResponse.make (output_text w) (quality_score w)
        (Z.of_nat (List.length (records c)))
        (HumaniseRequest.mode request) elapsed_ms (metrics w).
Proof.
  unfold transform.
  destruct (valid request); [|discriminate].
  destruct (iterate _ _ _ _ _ _ _ _ _) as [state recs] eqn:Hrun.
  destruct (winner state recs) as [w|] eqn:Hw; [|discriminate].
  intros [= <-]. simpl. split; trivial. split; trivial.
  exists w. split; trivial.
Qed.

End OrchestratorFacts.

Section OrchestratorClaims.
Import Api Orchestrator.
Local Open Scope Q_scope.

(** C4. When the iteration bound is exhausted without any iteration reaching
    the threshold, the result is built from the record with the highest
    quality score, and from the earliest such record when several share it:
    every earlier record scores strictly less and no later record scores
    more. For the scores 0.5, 0.7, 0.7 under threshold 0.8 the result is the
    output of iteration 2 and reports 3 iterations. *)
Theorem exhaustion_returns_earliest_best :
  (forall config search curated generate score elapsed_ms request c,
      transform config search curated generate score elapsed_ms request
        = inr c ->
      terminal c = Exhausted ->
      Forall (below config) (records c) /\
      exists earlier w later,
        records c = (earlier ++ w :: later)%list /\
        HumaniseResponse.output_text (result c) = output_text w /\
        HumaniseResponse.quality_score (result c) = quality_score w /\
        HumaniseResponse.metrics (result c) = metrics w /\
        Forall (fun r => quality_score r < quality_score w) earlier /\
        Forall (fun r => quality_score r <= quality_score w) later) /\
  (exists c w,
      tie_break_run = inr c /\
      terminal c = Exhausted /\
      map quality_score (records c) = [1 # 2; 7 # 10; 7 # 10] /\
      nth_error (records c) 1 = Some w /\
      iteration_index w = 2%nat /\
      HumaniseResponse.output_text (result c) = output_text w /\
      HumaniseResponse.output_text (result c) = Js.lit "draft 2" /\
      HumaniseResponse.iterations (result c) = 3%Z).
Proof.
  split.
  - intros config search curated generate score elapsed_ms request c Hc Hex.
    apply transform_completed in Hc.
    destruct Hc as [_ [Hrun [w [Hw Hresult]]]].
    rewrite Hex in *.
    apply iterate_appends in Hrun.
    destruct Hrun as [new [Hnew [_ Hbelow]]]. simpl in Hnew.
    split; [rewrite Hnew; exact Hbelow|].
    apply best_earliest in Hw.
    destruct Hw as [earlier [later [Hsplit [Hlt Hle]]]].
    exists earlier, w, later. rewrite Hresult. simpl.
    repeat split; trivial.
  - eexists. eexists.
    split; [vm_compute; reflexivity|].
    repeat split; vm_compute; reflexivity.
Qed.

(** The tie-break scenario, through the general statement. *)
Lemma exhaustion_tie_break_witness :
  exists c,
    tie_break_run = inr c /\
    terminal c = Exhausted /\
    Forall (below strict_config) (records c) /\
    exists earlier w later,
      records c = (earlier ++ w :: later)%list /\
      HumaniseResponse.output_text (result c) = output_text w /\
      HumaniseResponse.quality_score (result c) = quality_score w /\
      HumaniseResponse.metrics (result c) = metrics w /\
      Forall (fun r => quality_score r < quality_score w) earlier /\
      Forall (fun r => quality_score r <= quality_score w) later.
Proof.
  destruct tie_break_run as [e | c] eqn:Hrun; [vm_compute in Hrun; discriminate|].
  assert (Hex : terminal c = Exhausted).
  { vm_compute in Hrun. injection Hrun as <-. reflexivity. }
  exists c. split; [reflexivity|]. split; [exact Hex|].
  exact (proj1 exhaustion_returns_earliest_best _ _ _ _ _ _ _ _ Hrun Hex).
Defined.

(** C6. With a retrieval provider that fails or has no row on every call,
    [retrieve] returns the curated set of the mode, which has at least one
    exemplar, and the pipeline goes on with it: a valid request ends in a
    PipelineError only when every permitted rewrite attempt failed, so it
    completes as soon as one attempt succeeds. *)
Theorem retrieval_outage_falls_back :
  forall config search curated generate score elapsed_ms request,
    (forall topic_hint mode k,
        search topic_hint mode k = None \/ search topic_hint mode k = Some []) ->
    (forall mode topic_hint k,
        retrieve search curated mode topic_hint k
          = fst (curated mode) :: snd (curated mode) /\
        (1 <= List.length (retrieve search curated mode topic_hint k))%nat) /\
    (transform config search curated generate score elapsed_ms request
       = inl PipelineError ->
     forall i, (1 <= i <= max_iterations config)%nat ->
       rewrite generate i (HumaniseRequest.input_text request)
               (HumaniseRequest.mode request)
               (fst (curated (HumaniseRequest.mode request))
                  :: snd (curated (HumaniseRequest.mode request)))
               None = None) /\
    (valid request = true ->
     (exists i text,
         (1 <= i <= max_iterations config)%nat /\
         rewrite generate i (HumaniseRequest.input_text request)
                 (HumaniseRequest.mode request)
                 (fst (curated (HumaniseRequest.mode request))
                    :: snd (curated (HumaniseRequest.mode request)))
                 None = Some text) ->
     exists c,
       transform config search curated generate score elapsed_ms request
         = inr c).
Proof.
  intros config search curated generate score elapsed_ms request Hdown.
  assert (Hretrieve : forall mode topic_hint k,
             retrieve search curated mode topic_hint k
               = fst (curated mode) :: snd (curated mode)).
  { intros mode topic_hint k. unfold retrieve.
    destruct (Hdown topic_hint mode k) as [-> | ->]; reflexivity. }
  assert (Hpipeline :
    transform config search curated generate score elapsed_ms request
      = inl PipelineError ->
    forall i, (1 <= i <= max_iterations config)%nat ->
      rewrite generate i (HumaniseRequest.input_text request)
              (HumaniseRequest.mode request)
              (fst (curated (HumaniseRequest.mode request))
                 :: snd (curated (HumaniseRequest.mode request)))
              None = None).
  { unfold transform. rewrite Hretrieve.
    destruct (valid request); [|discriminate].
    destruct (iterate _ _ _ _ _ _ _ _ _) as [state recs] eqn:Hrun.
    destruct (winner state recs) as [w|] eqn:Hw; [discriminate|].
    intros _ i Hi.
    assert (Hnone : recs = []).
    { pose proof (iterate_appends _ _ _ _ _ _ _ _ _ Hrun)
        as [new [Hnew [_ Hstate]]].
      destruct state; simpl in Hw.
      - destruct Hstate as [before [l [-> _]]].
        simpl in Hnew. rewrite Hnew, last_record_app in Hw. discriminate.
      - destruct recs; [reflexivity | discriminate]. }
    subst recs.
    eapply iterate_without_record; [exact Hrun | lia]. }
  split; [|split].
  - intros mode topic_hint k. rewrite Hretrieve. simpl. split; [reflexivity | lia].
  - exact Hpipeline.
  - intros Hvalid [i [text [Hi Hsome]]].
    destruct (transform config search curated generate score elapsed_ms request)
      as [[|] | c] eqn:Ht.
    + unfold transform in Ht. rewrite Hvalid in Ht.
      destruct (iterate _ _ _ _ _ _ _ _ _) as [state recs].
      destruct (winner state recs); discriminate.
    + rewrite (Hpipeline eq_refl i Hi) in Hsome. discriminate.
    + eauto.
Qed.

Lemma retrieval_outage_witness :
  (forall topic_hint mode k,
      search_down topic_hint mode k = None \/
      search_down topic_hint mode k = Some []) /\
  (1 <= List.length (retrieve search_down sample_curated sales
                              (HumaniseRequest.input_text sample_request) 5))%nat /\
  exists c, tie_break_run = inr c.
Proof.
  assert (Hdown : forall topic_hint mode k,
             search_down topic_hint mode k = None \/
             search_down topic_hint mode k = Some [])
    by (intros; left; reflexivity).
  pose proof (retrieval_outage_falls_back strict_config search_down
                sample_curated drafts
                (score_drafts [1 # 2; 7 # 10; 7 # 10]) 1200 sample_request
                Hdown) as [Hretrieve [_ Hcompletes]].
  split; [exact Hdown|].
  split; [apply Hretrieve|].
  apply Hcompletes; [reflexivity|].
  exists 1%nat. eexists. split; [simpl; lia | vm_compute; reflexivity].
Defined.

End OrchestratorClaims.

(* ================================================================== *)
(** ** Trimming and counting words *)
(* ================================================================== *)

Section TextFacts.
Import Text.

Lemma trimStart_split (s : jsstring) :
  exists blanks,
    s = (blanks ++ Js.trimStart s)%list /\
    forallb Js.isWhiteSpace blanks = true /\
    starts_bare (Js.trimStart s).
Proof.
  induction s as [|c r [blanks [Hsplit [Hblank Hbare]]]]; simpl.
  - exists []. auto.
  - destruct (Js.isWhiteSpace c) eqn:Hc.
    + exists (c :: blanks). simpl. rewrite Hc, Hblank.
      split; [congruence | auto].
    + exists []. simpl. auto.
Qed.

Lemma trimEnd_split (s : jsstring) :
  exists blanks,
    s = (Js.trimEnd s ++ blanks)%list /\
    forallb Js.isWhiteSpace blanks = true /\
    starts_bare (rev (Js.trimEnd s)).
Proof.
  unfold Js.trimEnd.
  destruct (trimStart_split (rev s)) as [blanks [Hsplit [Hblank Hbare]]].
  exists (rev blanks). split; [|split].
  - rewrite <- rev_app_distr, <- Hsplit. symmetry. apply rev_involutive.
  - rewrite forallb_forall in *. intros c Hc. apply Hblank.
    now apply in_rev.
  - now rewrite rev_involutive.
Qed.

Lemma trimStart_bare (s : jsstring) : starts_bare s -> Js.trimStart s = s.
Proof. destruct s as [|c r]; simpl; trivial. now intros ->. Qed.

Lemma trimEnd_bare (s : jsstring) : starts_bare (rev s) -> Js.trimEnd s = s.
Proof.
  intros H. unfold Js.trimEnd. rewrite trimStart_bare by exact H.
  apply rev_involutive.
Qed.

(** What [trim] returns has no white space at either end. *)
Lemma trim_bare (s : jsstring) : bare (Js.trim s).
Proof.
  unfold Js.trim, bare.
  destruct (trimStart_split s) as [_ [_ [_ Hstart]]].
  destruct (trimEnd_split (Js.trimStart s)) as [blanks [Hsplit [_ Hend]]].
  split; [|exact Hend].
  destruct (Js.trimEnd (Js.trimStart s)) as [|c r] eqn:Ht; simpl; trivial.
  rewrite Hsplit in Hstart. exact Hstart.
Qed.

Lemma trim_of_bare (s : jsstring) : bare s -> Js.trim s = s.
Proof.
  intros [Hstart Hend]. unfold Js.trim.
  rewrite (trimStart_bare _ Hstart). now apply trimEnd_bare.
Qed.

Lemma trim_idempotent (s : jsstring) : Js.trim (Js.trim s) = Js.trim s.
Proof. apply trim_of_bare, trim_bare. Qed.

(** The string is its trimmed form between two runs of white space. *)
Lemma trim_split (s : jsstring) :
  exists before after,
    s = (before ++ Js.trim s ++ after)%list /\
    forallb Js.isWhiteSpace before = true /\
    forallb Js.isWhiteSpace after = true.
Proof.
  destruct (trimStart_split s) as [before [Hs [Hbefore _]]].
  destruct (trimEnd_split (Js.trimStart s)) as [after [Ht [Hafter _]]].
  exists before, after. unfold Js.trim.
  rewrite <- Ht. auto.
Qed.

Lemma words_from_blanks (in_word : bool) (blanks s : jsstring) :
  forallb Js.isWhiteSpace blanks = true ->
  blanks <> [] \/ in_word = false ->
  words_from in_word (blanks ++ s) = words_from false s.
Proof.
  revert in_word. induction blanks as [|c r IH]; simpl; intros in_word Hb Hw.
  - destruct Hw as [Hw | ->]; [congruence | reflexivity].
  - apply andb_prop in Hb. destruct Hb as [-> Hr].
    apply IH; auto.
Qed.

Lemma words_from_trailing_blanks (in_word : bool) (s blanks : jsstring) :
  forallb Js.isWhiteSpace blanks = true ->
  words_from in_word (s ++ blanks) = words_from in_word s.
Proof.
  intros Hb. revert in_word. induction s as [|c r IH]; simpl; intros in_word.
  - destruct blanks as [|b bs]; trivial.
    rewrite <- (app_nil_r (b :: bs)).
    rewrite words_from_blanks; auto. left; discriminate.
  - destruct (Js.isWhiteSpace c); rewrite ?IH; reflexivity.
Qed.

Lemma words_from_trim (s : jsstring) :
  words_from false (Js.trim s) = words_from false s.
Proof.
  destruct (trim_split s) as [before [after [Hs [Hb Ha]]]].
  rewrite Hs at 2.
  rewrite words_from_blanks by auto.
  now rewrite words_from_trailing_blanks.
Qed.

(** What [split(/\s+/)] followed by [filter(Boolean)] keeps, counted. *)
Lemma split_ws_words (s cur : jsstring) (in_separator : bool) :
  (in_separator = true -> cur = []) ->
  List.length (filter (fun piece => negb (Js.falsy piece))
                      (Display.split_ws in_separator cur s))
  = ((if Js.falsy cur then 0 else 1)
     + words_from (negb (Js.falsy cur)) s)%nat.
Proof.
  revert cur in_separator.
  induction s as [|c r IH]; intros cur in_separator Hinv; simpl.
  - destruct cur as [|x cur]; simpl; trivial.
    destruct (rev cur ++ [x])%list eqn:E; simpl; trivial.
    destruct (rev cur); discriminate.
  - destruct (Js.isWhiteSpace c).
    + destruct in_separator.
      * rewrite IH by trivial. rewrite (Hinv eq_refl). reflexivity.
      * cbn [filter]. specialize (IH [] true (fun _ => eq_refl)).
        cbn [Js.falsy negb] in IH.
        destruct cur as [|x cur]; cbn [rev Js.falsy negb app].
        -- cbn [List.length]. exact IH.
        -- destruct (rev cur ++ [x])%list eqn:E;
             [destruct (rev cur); discriminate|].
           cbn [Js.falsy negb List.length]. rewrite IH. reflexivity.
    + rewrite IH by discriminate. simpl.
      destruct cur; simpl; lia.
Qed.

End TextFacts.

Section WordCountFacts.
Import Text.

Lemma words_from_separator (in_word : bool) (a b : jsstring) (c : Js.code_unit) :
  Js.isWhiteSpace c = true ->
  words_from in_word (a ++ c :: b)
  = (words_from in_word a + words_from false b)%nat.
Proof.
  intros Hc. revert in_word.
  induction a as [|x a IH]; simpl; intros in_word.
  - now rewrite Hc.
  - destruct (Js.isWhiteSpace x); rewrite IH; lia.
Qed.

Lemma words_from_length (in_word : bool) (s : jsstring) :
  (words_from in_word s <= List.length s)%nat.
Proof.
  revert in_word. induction s as [|c r IH]; simpl; intros in_word; [lia|].
  destruct (Js.isWhiteSpace c).
  - specialize (IH false). lia.
  - specialize (IH true). destruct in_word; lia.
Qed.

Lemma wordCount_runs (text : jsstring) :
  HumaniserForm.wordCount text = words_from false text.
Proof.
  unfold HumaniserForm.wordCount.
  rewrite split_ws_words by discriminate. simpl.
  apply words_from_trim.
Qed.

Lemma wordCount_blank (text : jsstring) :
  HumaniserForm.wordCount text = 0%nat <-> Js.trim text = [].
Proof.
  rewrite wordCount_runs, <- words_from_trim.
  destruct (trim_bare text) as [Hstart _].
  destruct (Js.trim text) as [|c r]; simpl in *.
  - tauto.
  - rewrite Hstart. split; [lia | discriminate].
Qed.

(** X1. The word badge of the input form and of the output card, computed
    by trim, split on white space, drop the empty pieces and take the
    length, is the number of maximal runs of characters that are not white
    space in the text as typed. *)
Theorem wordCount_counts_runs :
  forall text : jsstring,
    HumaniserForm.wordCount text = words_from false text /\
    Display.countWords text = words_from false text.
Proof.
  intros text. split; apply wordCount_runs.
Qed.

(** X2. Word counts add up across a white-space character: the count of two
    texts joined by one is the sum of their counts. Blanks around a text do
    not change its count. *)
Theorem wordCount_additive :
  forall (a b : jsstring) (c : Js.code_unit),
    Js.isWhiteSpace c = true ->
    HumaniserForm.wordCount (a ++ c :: b)
    = (HumaniserForm.wordCount a + HumaniserForm.wordCount b)%nat /\
    HumaniserForm.wordCount (c :: a) = HumaniserForm.wordCount a /\
    HumaniserForm.wordCount (a ++ [c]) = HumaniserForm.wordCount a /\
    HumaniserForm.wordCount (Js.trim a) = HumaniserForm.wordCount a.
Proof.
  intros a b c Hc. rewrite !wordCount_runs.
  split; [now apply words_from_separator|].
  split; [simpl; now rewrite Hc|].
  split.
  - rewrite words_from_separator by exact Hc. simpl. lia.
  - apply words_from_trim.
Qed.

(** X3. The word badge shows 0 exactly for a text that is empty once
    trimmed, and never more words than the character badge shows
    characters. *)
Theorem wordCount_zero_iff_blank :
  forall text : jsstring,
    (HumaniserForm.wordCount text = 0%nat <-> Js.trim text = []) /\
    (HumaniserForm.wordCount text <= HumaniserForm.charCount text)%nat.
Proof.
  intros text. split.
  - apply wordCount_blank.
  - rewrite wordCount_runs. apply words_from_length.
Qed.

(** X4. While the submit button of the input form is enabled, the badges
    show at least 20 characters and at least one word, and no request is in
    flight. *)
Theorem submit_enabled_counts :
  forall (isLoading : bool) (inputText : jsstring),
    HumaniserForm.submitDisabled isLoading inputText = false ->
    isLoading = false /\
    (20 <= HumaniserForm.charCount inputText)%nat /\
    (1 <= HumaniserForm.wordCount inputText)%nat.
Proof.
  intros isLoading inputText H.
  unfold HumaniserForm.submitDisabled in H.
  apply orb_false_elim in H. destruct H as [H Hlen].
  apply orb_false_elim in H. destruct H as [Hloading Hempty].
  apply Nat.ltb_ge in Hlen.
  split; [exact Hloading|]. split.
  - pose proof (trim_length inputText). unfold HumaniserForm.charCount. lia.
  - destruct (wordCount_blank inputText) as [Hzero _].
    destruct (HumaniserForm.wordCount inputText); [|lia].
    rewrite (Hzero eq_refl) in Hlen. simpl in Hlen. lia.
Qed.

End WordCountFacts.

(* ================================================================== *)
(** ** The hook on the page *)
(* ================================================================== *)

Section PageFacts.
Import Api UseHumaniser.

Variable backend : HumaniseRequest.t -> Js.settled HumaniseResponse.t.
Variable meanwhile : UseHumaniserState -> UseHumaniserState.

Ltac validation state :=
  unfold submit, humanise;
  destruct (Js.falsy (Js.trim (inputText state))) eqn:Hempty;
  [ | destruct (List.length (Js.trim (inputText state)) <? 20) eqn:Hshort ].

(** X5. With no request in flight, the submit button of the input form is
    enabled exactly when a click reaches the back end: [humanise] then
    sends one request with the text and mode of the render, and sends none
    while the button is disabled. *)
Theorem submit_button_matches_validation :
  forall state store : UseHumaniserState,
    isLoading state = false ->
    requests (snd (submit backend meanwhile state store)) =
      (if Page.submitDisabled state then []
       else [HumaniseRequest.make (inputText state) (mode state)]).
Proof.
  intros state store Hidle.
  unfold Page.submitDisabled, HumaniserForm.submitDisabled. rewrite Hidle.
  validation state; simpl; trivial.
  destruct (backend _); reflexivity.
Qed.

(** X6. [humanise] never writes the text or the mode: whatever render it
    was created in, and whether it rejects the input, succeeds or fails,
    the store keeps its own text and mode (as long as nothing else changes
    them in the meantime). *)
Theorem humanise_keeps_text_and_mode :
  forall state store : UseHumaniserState,
    (forall st, inputText (meanwhile st) = inputText st /\
                mode (meanwhile st) = mode st) ->
    inputText (fst (submit backend meanwhile state store)) = inputText store /\
    mode (fst (submit backend meanwhile state store)) = mode store.
Proof.
  intros state store Hkeeps.
  validation state; simpl; auto.
  destruct (backend _); simpl;
    destruct (Hkeeps {| inputText := inputText store; mode := mode store;
                        isLoading := true; error := None; result := None |})
      as [-> ->]; auto.
Qed.

(** X7. What the page shows once a request that passed validation has
    settled: the results grid and no error panel after a success; after a
    failure no results grid, and the error panel unless the error message
    is the empty string. *)
Theorem settled_request_panels :
  forall state store : UseHumaniserState,
    (20 <= List.length (Js.trim (inputText state)))%nat ->
    let store' := fst (submit backend meanwhile state store) in
    match backend (HumaniseRequest.make (inputText state) (mode state)) with
    | Js.Fulfilled _ =>
        Page.showsResults store' = true /\ Page.showsError store' = false
    | Js.Rejected reason =>
        Page.showsResults store' = false /\
        Page.showsError store' = negb (Js.falsy (errorMessageOf reason))
    end.
Proof.
  intros state store Hvalid; cbv zeta.
  validation state.
  - apply falsy_length in Hempty. lia.
  - apply Nat.ltb_lt in Hshort. lia.
  - simpl. destruct (backend _); simpl.
    + split; reflexivity.
    + unfold Page.showsError. simpl. split; [reflexivity|].
      apply andb_true_r.
Qed.

(** X8. A validation failure leaves a result that is on screen where it is:
    the results grid stays, and the error panel stays hidden although the
    validation message is stored in [error]. *)
Theorem validation_failure_keeps_results :
  forall (state store : UseHumaniserState) (shown : HumaniseResponse.t),
    result store = Some shown ->
    (List.length (Js.trim (inputText state)) < 20)%nat ->
    let store' := fst (submit backend meanwhile state store) in
    result store' = Some shown /\
    error store' <> None /\
    Page.showsResults store' = true /\
    Page.showsError store' = false.
Proof.
  intros state store shown Hshown Hshort'; cbv zeta.
  unfold Page.showsResults, Page.showsError.
  validation state; simpl; rewrite ?Hshown.
  - repeat split; discriminate.
  - repeat split; discriminate.
  - apply Nat.ltb_ge in Hshort. lia.
Qed.

(** X9. While a request is in flight the store is loading with neither a
    result nor an error, so the page shows no panel and the submit button
    is disabled; the text and mode are those of the store. [humanise]
    suspends exactly when the input passes validation. *)
Theorem in_flight_state :
  forall state store : UseHumaniserState,
    match suspended exec (humanise state) store with
    | Some waiting =>
        (20 <= List.length (Js.trim (inputText state)))%nat /\
        isLoading waiting = true /\
        result waiting = None /\ error waiting = None /\
        inputText waiting = inputText store /\ mode waiting = mode store /\
        Page.submitDisabled waiting = true /\
        Page.showsResults waiting = false /\
        Page.showsError waiting = false
    | None => (List.length (Js.trim (inputText state)) < 20)%nat
    end.
Proof.
  intros state store. unfold humanise.
  destruct (Js.falsy (Js.trim (inputText state))) eqn:Hempty;
    [ | destruct (List.length (Js.trim (inputText state)) <? 20) eqn:Hshort ];
    simpl.
  - apply falsy_length in Hempty. lia.
  - now apply Nat.ltb_lt in Hshort.
  - apply Nat.ltb_ge in Hshort. repeat split; trivial.
Qed.

End PageFacts.

(* ================================================================== *)
(** ** The URL scraper form, beyond validation *)
(* ================================================================== *)

Section ScraperFormFacts.
Import Api UrlScraperForm.

Variable backend : ScrapeRequest.t -> Js.settled ScrapeResponse.t.
Variable meanwhile : FormState -> FormState.

Lemma form_valid_tests (state : FormState) :
  Js.trim (url state) <> [] ->
  (5 <= List.length (Js.trim (description state)))%nat ->
  Js.falsy (Js.trim (url state)) = false /\
  Js.falsy (Js.trim (description state)) = false /\
  (List.length (Js.trim (description state)) <? 5) = false.
Proof.
  intros Hurl Hlen. split; [|split].
  - destruct (Js.trim (url state)); [contradiction | reflexivity].
  - destruct (Js.trim (description state)); [simpl in Hlen; lia | reflexivity].
  - now apply Nat.ltb_ge.
Qed.

(** X10. How a submission that passed validation ends. Loading is always
    switched off again. After a success the URL and description fields are
    emptied and the result holds the response; after a failure both fields
    keep what they held and the result is the failure with the error
    message, a word count of 0 and no file name. The content type is never
    touched. *)
Theorem handleSubmit_outcome :
  forall state store : FormState,
    Js.trim (url state) <> [] ->
    (5 <= List.length (Js.trim (description state)))%nat ->
    let waiting :=
      meanwhile {| url := url store; contentType := contentType store;
                   description := description store; isLoading := true;
                   result := None |} in
    fst (submit backend meanwhile state store) =
      match backend (ScrapeRequest.make (Js.trim (url state))
                       (contentType state) (Js.trim (description state))) with
      | Js.Fulfilled response =>
          {| url := []; contentType := contentType waiting;
             description := []; isLoading := false;
             result := Some {| success := ScrapeResponse.success response;
                               message := ScrapeResponse.message response;
                               wordCount := ScrapeResponse.word_count response;
                               filename := ScrapeResponse.filename response |}
          |}
      | Js.Rejected reason =>
          {| url := url waiting; contentType := contentType waiting;
             description := description waiting; isLoading := false;
             result := Some {| success := false;
                               message := UseHumaniser.errorMessageOf reason;
                               wordCount := 0; filename := [] |} |}
      end.
Proof.
  intros state store Hurl Hlen; cbv zeta.
  destruct (form_valid_tests state Hurl Hlen) as [H1 [H2 H3]].
  unfold submit, handleSubmit. rewrite H1, H2, H3. simpl.
  destruct (backend _); reflexivity.
Qed.

(** X11. While a scrape request is in flight the form is loading and shows
    no result, so its submit button is disabled and its Clear button
    hidden; the handler suspends exactly when both fields pass
    validation. *)
Theorem scrape_in_flight_state :
  forall state store : FormState,
    match suspended exec (handleSubmit state) store with
    | Some waiting =>
        Js.trim (url state) <> [] /\
        (5 <= List.length (Js.trim (description state)))%nat /\
        isLoading waiting = true /\ result waiting = None /\
        url waiting = url store /\ description waiting = description store /\
        ScraperButtons.submitDisabled waiting = true /\
        ScraperButtons.clearVisible waiting = false
    | None =>
        Js.trim (url state) = [] \/
        (List.length (Js.trim (description state)) < 5)%nat
    end.
Proof.
  intros state store. unfold handleSubmit.
  destruct (Js.falsy (Js.trim (url state))) eqn:Hurl;
    [ | destruct (Js.falsy (Js.trim (description state))) eqn:Hdesc;
        [ | destruct (List.length (Js.trim (description state)) <? 5)
              eqn:Hshort ] ];
    simpl.
  - left. now apply falsy_iff_nil.
  - right. apply falsy_length in Hdesc. lia.
  - right. now apply Nat.ltb_lt.
  - apply Nat.ltb_ge in Hshort. repeat split; trivial.
    intros Hnil. rewrite Hnil in Hurl. discriminate.
Qed.

(** X12. The Clear button is on screen only when there is something to
    clear and nothing is loading; a click on it puts the form back into its
    initial state, and takes the button off the screen. *)
Theorem clear_button_resets_form :
  forall st : FormState,
    ScraperButtons.clearVisible st = true ->
    isLoading st = false /\
    (url st <> [] \/ description st <> []) /\
    ScraperButtons.clickClear st = initial /\
    ScraperButtons.clearVisible (ScraperButtons.clickClear st) = false.
Proof.
  intros [u c d l r] Hvisible.
  unfold ScraperButtons.clearVisible in Hvisible. simpl in *.
  apply andb_prop in Hvisible. destruct Hvisible as [Hidle Hfilled].
  destruct l; [discriminate|].
  split; [reflexivity|]. split.
  - apply orb_prop in Hfilled.
    destruct Hfilled as [H | H]; [left | right];
      intros ->; discriminate.
  - split; reflexivity.
Qed.

(** What [handleSubmit] sends, by its tests. *)
Lemma handleSubmit_requests (state store : FormState) :
  requests (snd (submit backend meanwhile state store)) =
    (if Js.falsy (Js.trim (url state))
        || Js.falsy (Js.trim (description state))
        || (List.length (Js.trim (description state)) <? 5)
     then []
     else [ScrapeRequest.make (Js.trim (url state)) (contentType state)
                              (Js.trim (description state))]).
Proof.
  unfold submit, handleSubmit.
  destruct (Js.falsy (Js.trim (url state))); simpl; trivial.
  destruct (Js.falsy (Js.trim (description state))); simpl; trivial.
  destruct (List.length (Js.trim (description state)) <? 5); simpl; trivial.
  destruct (backend _); reflexivity.
Qed.

(** X13. Every scrape request carries a URL that is not empty and a
    description of at least 5 characters, both without white space at
    either end; and the request is a fixed point of the form: submitting a
    form filled with what a request carried sends that same request. *)
Theorem scrape_request_is_bare :
  forall (state store store2 : FormState) (request : ScrapeRequest.t),
    In request (requests (snd (submit backend meanwhile state store))) ->
    ScrapeRequest.url request <> [] /\
    Text.bare (ScrapeRequest.url request) /\
    (5 <= List.length (ScrapeRequest.description request))%nat /\
    Text.bare (ScrapeRequest.description request) /\
    requests (snd (submit backend meanwhile
                     (ScraperButtons.refilled state request) store2))
      = [request].
Proof.
  intros state store store2 request Hsent.
  rewrite handleSubmit_requests in Hsent.
  destruct (Js.falsy (Js.trim (url state))) eqn:Hurl; [contradiction|].
  destruct (Js.falsy (Js.trim (description state))) eqn:Hdesc;
    [contradiction|].
  destruct (List.length (Js.trim (description state)) <? 5) eqn:Hshort;
    [contradiction|].
  destruct Hsent as [<- | []]. simpl.
  apply Nat.ltb_ge in Hshort.
  split; [intros Hnil; rewrite Hnil in Hurl; discriminate|].
  split; [apply trim_bare|]. split; [exact Hshort|].
  split; [apply trim_bare|].
  rewrite handleSubmit_requests. simpl.
  rewrite !trim_idempotent, Hurl, Hdesc.
  apply Nat.ltb_ge in Hshort. rewrite Hshort. reflexivity.
Qed.

End ScraperFormFacts.

(* ================================================================== *)
(** ** Scores on screen *)
(* ================================================================== *)

Section ScoreFacts.
Import Display.
Local Open Scope Q_scope.

Lemma Qle_bool_mono (threshold q1 q2 : Q) :
  q1 <= q2 -> Qle_bool threshold q1 = true -> Qle_bool threshold q2 = true.
Proof.
  intros Hle H. apply Qle_bool_iff in H. apply Qle_bool_iff.
  eapply Qle_trans; eauto.
Qed.

(** X14. A higher score never gets a worse badge on the output card, a
    worse verdict colour class, or a worse bar colour on the metrics
    card. *)
Theorem score_bands_monotone :
  forall q1 q2 : Q,
    q1 <= q2 ->
    (OutputDisplay.badge_rank (getScoreBadge q1)
       <= OutputDisplay.badge_rank (getScoreBadge q2))%nat /\
    (OutputDisplay.colour_rank (getProgressColor q1)
       <= OutputDisplay.colour_rank (getProgressColor q2))%nat /\
    (OutputDisplay.getScoreColor q1 = "text-green-600 dark:text-green-400"%string ->
     OutputDisplay.getScoreColor q2 = "text-green-600 dark:text-green-400"%string).
Proof.
  intros q1 q2 Hle.
  pose proof (@Qle_bool_mono (8 # 10) q1 q2 Hle) as H8.
  pose proof (@Qle_bool_mono (6 # 10) q1 q2 Hle) as H6.
  pose proof (@Qle_bool_mono (7 # 10) q1 q2 Hle) as H7.
  pose proof (@Qle_bool_mono (5 # 10) q1 q2 Hle) as H5.
  unfold getScoreBadge, getProgressColor, OutputDisplay.getScoreColor.
  split; [|split].
  - destruct (Qle_bool (8 # 10) q1); [rewrite H8 by trivial; simpl; lia|].
    destruct (Qle_bool (6 # 10) q1).
    + rewrite H6 by trivial. destruct (Qle_bool (8 # 10) q2); simpl; lia.
    + destruct (Qle_bool (8 # 10) q2), (Qle_bool (6 # 10) q2); simpl; lia.
  - destruct (Qle_bool (7 # 10) q1); [rewrite H7 by trivial; simpl; lia|].
    destruct (Qle_bool (5 # 10) q1).
    + rewrite H5 by trivial. destruct (Qle_bool (7 # 10) q2); simpl; lia.
    + destruct (Qle_bool (7 # 10) q2), (Qle_bool (5 # 10) q2); simpl; lia.
  - destruct (Qle_bool (8 # 10) q1); [rewrite H8 by trivial; trivial|].
    destruct (Qle_bool (6 # 10) q1); discriminate.
Qed.

(** X15. On the results grid the badge of the output card and the verdict
    of the metrics card always agree, and both cards show the same
    percentage: the two components are fed the same quality score and cut
    it at the same thresholds. *)
Theorem badge_and_verdict_agree :
  forall (result : Json.value) (view : OutputView) (panel : MetricsView),
    ResultsGrid result = Some (view, panel) ->
    OutputDisplay.verdict_rank (overall_verdict panel)
      = OutputDisplay.badge_rank (scoreBadge view) /\
    overall panel = scorePercent view.
Proof.
  intros result view panel.
  unfold ResultsGrid, OutputDisplay, MetricsDisplay, bind.
  destruct (Json.get "output_text" result) as [v1|]; [|discriminate].
  destruct (Json.asString v1) as [text|]; [|discriminate].
  destruct (Json.get "quality_score" result) as [v2|]; [|discriminate].
  destruct (Json.asNumber v2) as [q|]; [|discriminate].
  destruct (Json.get "iterations" result) as [v3|]; [|discriminate].
  destruct (Json.asNumber v3) as [n|]; [|discriminate].
  destruct (Json.get "processing_time_ms" result) as [v4|]; [|discriminate].
  destruct (Json.get "mode" result) as [v5|]; [|discriminate].
  destruct (Json.get "metrics" result) as [m|]; [|discriminate].
  destruct (Json.get "burstiness" m) as [b|]; [|discriminate].
  destruct (Json.asNumber b); [|discriminate].
  destruct (Json.get "lexical_diversity" m) as [l|]; [|discriminate].
  destruct (Json.asNumber l); [|discriminate].
  destruct (Json.get "contraction_ratio" m) as [c|]; [|discriminate].
  destruct (Json.asNumber c); [|discriminate].
  destruct (Json.get "word_count" m); [|discriminate].
  destruct (Json.get "sentence_count" m); [|discriminate].
  intros [= <- <-]. simpl. unfold getScoreBadge.
  split; [|reflexivity].
  destruct (Qle_bool (8 # 10) q); [reflexivity|].
  destruct (Qle_bool (6 # 10) q); reflexivity.
Qed.

End ScoreFacts.

(* ================================================================== *)
(** ** Properties the components do not read *)
(* ================================================================== *)

Section ExtraPropertyFacts.
Import Display.

Lemma lookup_other (name k : string) (v : Json.value)
    (before after : list (string * Json.value)) :
  name <> k ->
  Json.lookup name (before ++ (k, v) :: after)
  = Json.lookup name (before ++ after).
Proof.
  intros Hne. induction before as [|[k' v'] before IH]; simpl.
  - destruct (String.eqb_spec name k); [contradiction | reflexivity].
  - destruct (String.eqb name k'); [reflexivity | exact IH].
Qed.

(** X16. A property the components do not read makes no difference: the
    results grid shows the same for a result with an extra property under
    another name than the six it binds, wherever it stands in the object,
    and the metrics card the same for a metrics object with one beside its
    five. *)
Theorem unread_properties_are_ignored :
  forall (k : string) (v : Json.value)
         (before after : list (string * Json.value)),
    (~ In k result_fields ->
     ResultsGrid (Json.Object (before ++ (k, v) :: after))
     = ResultsGrid (Json.Object (before ++ after))) /\
    (~ In k metrics_fields ->
     forall qualityScore,
       MetricsDisplay (Json.Object (before ++ (k, v) :: after)) qualityScore
       = MetricsDisplay (Json.Object (before ++ after)) qualityScore).
Proof.
  intros k v before after. split.
  - intros Hk. unfold ResultsGrid, OutputDisplay, Json.get.
    rewrite !lookup_other;
      try (intros <-; apply Hk; simpl; tauto).
    reflexivity.
  - intros Hk qualityScore. unfold MetricsDisplay, Json.get.
    rewrite !lookup_other;
      try (intros <-; apply Hk; simpl; tauto).
    reflexivity.
Qed.

End ExtraPropertyFacts.

(* ================================================================== *)
(** ** [match_human_content]: what is returned and what is cut off *)
(* ================================================================== *)

Section RankingFacts.
Import Schema.
Local Open Scope R_scope.

Lemma insert_by_Permutation {A} (le : A -> A -> bool) (x : A) (l : list A) :
  Permutation (insert_by le x l) (x :: l).
Proof.
  induction l as [|y l IH]; simpl; [reflexivity|].
  destruct (le x y); [reflexivity|].
  rewrite IH. apply perm_swap.
Qed.

Lemma order_by_Permutation {A} (le : A -> A -> bool) (l : list A) :
  Permutation (order_by le l) l.
Proof.
  induction l as [|x l IH]; simpl; [reflexivity|].
  rewrite insert_by_Permutation. now constructor.
Qed.

Lemma for_each_with_distance (q : option vector)
    (rows : list human_content.row)
    (selected : list (option float8 * human_content.row)) :
  for_each (with_distance q) rows = Ok selected ->
  map snd selected = rows.
Proof.
  revert selected. induction rows as [|h rows IH]; simpl; intros selected.
  - now intros [= <-].
  - unfold with_distance at 1.
    destruct (cosine_op (human_content.embedding h) q); simpl; [|discriminate].
    destruct (for_each (with_distance q) rows) as [rest|]; simpl;
      [|discriminate].
    intros [= <-]. simpl. f_equal. now apply IH.
Qed.

(** A successful call, taken apart: the scan with its distances, the
    ranking, and the cut. *)
Lemma match_human_content_steps (table : list human_content.row)
    (q : option vector) (match_count : option Z) (wanted : option string)
    (rows : list matched.row) :
  match_human_content table q match_count wanted = Ok rows ->
  exists count selected,
    limit_count match_count = Ok count /\
    for_each (with_distance q) (filter (where_clause wanted) table)
      = Ok selected /\
    rows = map select_list
             (limit count
                (order_by (fun x y => key_le (fst x) (fst y)) selected)).
Proof.
  unfold match_human_content.
  destruct (limit_count match_count) as [count|]; simpl; [|discriminate].
  destruct (for_each _ _) as [selected|]; simpl; [|discriminate].
  intros [= <-]. eauto.
Qed.

(** X17. How many rows come back: as many as the table has of the wanted
    content type (all rows when no type is wanted), cut to [match_count]
    when there is one. *)
Theorem match_human_content_row_count :
  forall (table : list human_content.row) (query_embedding : option vector)
         (match_count : option Z) (content_type_filter : option string)
         (rows : list matched.row),
    match_human_content table query_embedding match_count content_type_filter
      = Ok rows ->
    List.length rows =
      match match_count with
      | None => List.length (filter (where_clause content_type_filter) table)
      | Some k =>
          Nat.min (Z.to_nat k)
                  (List.length (filter (where_clause content_type_filter) table))
      end.
Proof.
  intros table q match_count wanted rows Hrows.
  apply match_human_content_steps in Hrows.
  destruct Hrows as [count [selected [Hcount [Hscan ->]]]].
  apply for_each_with_distance in Hscan.
  rewrite length_map, <- Hscan, length_map.
  unfold limit_count in Hcount.
  destruct match_count as [k|].
  - destruct (k <? 0)%Z; [discriminate|]. injection Hcount as <-. simpl.
    now rewrite length_firstn, order_by_length.
  - injection Hcount as <-. simpl. apply order_by_length.
Qed.

(** X18. Without a limit nothing is lost, repeated or altered: the returned
    rows are, up to their order, the rows of the table that have the wanted
    content type, each with its id, content, content type and topic. *)
Theorem match_human_content_returns_selected_rows :
  forall (table : list human_content.row) (query_embedding : option vector)
         (content_type_filter : option string) (rows : list matched.row),
    match_human_content table query_embedding None content_type_filter
      = Ok rows ->
    Permutation
      (map (fun r => (matched.id r, matched.content r,
                      matched.content_type r, matched.topic r)) rows)
      (map (fun h => (human_content.id h, human_content.content h,
                      human_content.content_type h, human_content.topic h))
           (filter (where_clause content_type_filter) table)).
Proof.
  intros table q wanted rows Hrows.
  apply match_human_content_steps in Hrows.
  destruct Hrows as [count [selected [Hcount [Hscan ->]]]].
  injection Hcount as <-. simpl.
  apply for_each_with_distance in Hscan. rewrite <- Hscan.
  rewrite !map_map.
  erewrite map_ext; [apply Permutation_map, order_by_Permutation|].
  intros [d h]. reflexivity.
Qed.


(** X20. With embeddings of the declared dimensions the call fails for one
    reason only, a negative [match_count]. *)
Theorem match_human_content_raises_iff_negative :
  forall (table : list human_content.row) (query_embedding : option vector)
         (match_count : option Z) (content_type_filter : option string),
    has_dimensions query_embedding ->
    Forall (fun h => has_dimensions (human_content.embedding h)) table ->
    ((exists rows,
         match_human_content table query_embedding match_count
                             content_type_filter = Ok rows)
     <-> (forall k, match_count = Some k -> (0 <= k)%Z)) /\
    ((exists k, match_count = Some k /\ (k < 0)%Z) ->
     match_human_content table query_embedding match_count
                         content_type_filter
       = Raise "LIMIT must not be negative").
Proof.
  intros table q match_count wanted Hq Htable.
  assert (Hscan : exists selected,
             for_each (with_distance q) (filter (where_clause wanted) table)
               = Ok selected).
  { apply for_each_typed. apply Forall_forall. intros h Hh.
    apply filter_In in Hh. rewrite Forall_forall in Htable.
    destruct (@cosine_op_typed (human_content.embedding h) q) as [d Hd];
      [apply Htable; tauto | exact Hq |].
    unfold with_distance. rewrite Hd. simpl. eauto. }
  destruct Hscan as [selected Hscan].
  unfold match_human_content, limit_count. split; [split|].
  - intros [rows Hrows] k ->.
    destruct (Z.ltb_spec k 0); [discriminate | assumption].
  - intros Hk. destruct match_count as [k|]; simpl.
    + specialize (Hk k eq_refl).
      destruct (Z.ltb_spec k 0); [lia|]. simpl. rewrite Hscan. simpl. eauto.
    + rewrite Hscan. simpl. eauto.
  - intros [k [-> Hk]]. destruct (Z.ltb_spec k 0); [reflexivity | lia].
Qed.

End RankingFacts.

(* ================================================================== *)
(** ** The facts above at sample inputs *)
(* ================================================================== *)

Lemma wordCount_additive_witness :
  HumaniserForm.wordCount (Js.lit "nobody reads" ++ space :: Js.lit "the manual")
  = 4%nat.
Proof.
  destruct (@wordCount_additive (Js.lit "nobody reads") (Js.lit "the manual")
              space eq_refl) as [Hsum _].
  rewrite Hsum. reflexivity.
Defined.

Lemma submit_enabled_counts_witness :
  HumaniserForm.submitDisabled false (UseHumaniser.inputText padded_state)
    = false /\
  (20 <= HumaniserForm.charCount (UseHumaniser.inputText padded_state))%nat /\
  (1 <= HumaniserForm.wordCount (UseHumaniser.inputText padded_state))%nat.
Proof.
  assert (H : HumaniserForm.submitDisabled false
                (UseHumaniser.inputText padded_state) = false)
    by (vm_compute; reflexivity).
  split; [exact H|].
  exact (proj2 (@submit_enabled_counts false
                  (UseHumaniser.inputText padded_state) H)).
Defined.

Lemma submit_button_witness :
  UseHumaniser.isLoading padded_state = false /\
  requests (snd (UseHumaniser.submit answering_backend (fun st => st)
                   padded_state padded_state))
  = [Api.HumaniseRequest.make (UseHumaniser.inputText padded_state)
                              Api.sales].
Proof.
  split; [reflexivity|].
  exact (@submit_button_matches_validation answering_backend (fun st => st)
           padded_state padded_state eq_refl).
Defined.

Lemma humanise_keeps_text_witness :
  UseHumaniser.inputText
    (fst (UseHumaniser.submit answering_backend (fun st => st)
            padded_state shown_state))
  = Js.lit "hello" /\
  UseHumaniser.mode
    (fst (UseHumaniser.submit answering_backend (fun st => st)
            padded_state shown_state))
  = Api.sales.
Proof.
  exact (@humanise_keeps_text_and_mode answering_backend (fun st => st)
           padded_state shown_state (fun st => conj eq_refl eq_refl)).
Defined.

Lemma settled_request_panels_witness :
  (20 <= List.length (Js.trim (UseHumaniser.inputText padded_state)))%nat /\
  Page.showsResults
    (fst (UseHumaniser.submit answering_backend (fun st => st)
            padded_state padded_state)) = true /\
  Page.showsError
    (fst (UseHumaniser.submit answering_backend (fun st => st)
            padded_state padded_state)) = false.
Proof.
  assert (H : (20 <= List.length
                       (Js.trim (UseHumaniser.inputText padded_state)))%nat)
    by (apply Nat.leb_le; vm_compute; reflexivity).
  split; [exact H|].
  exact (@settled_request_panels answering_backend (fun st => st)
           padded_state padded_state H).
Defined.

Lemma validation_failure_witness :
  UseHumaniser.result
    (fst (UseHumaniser.submit answering_backend (fun st => st)
            shown_state shown_state)) = Some sample_response /\
  UseHumaniser.error
    (fst (UseHumaniser.submit answering_backend (fun st => st)
            shown_state shown_state)) <> None /\
  Page.showsResults
    (fst (UseHumaniser.submit answering_backend (fun st => st)
            shown_state shown_state)) = true /\
  Page.showsError
    (fst (UseHumaniser.submit answering_backend (fun st => st)
            shown_state shown_state)) = false.
Proof.
  assert (H : (List.length (Js.trim (UseHumaniser.inputText shown_state))
               < 20)%nat)
    by (apply Nat.ltb_lt; vm_compute; reflexivity).
  exact (@validation_failure_keeps_results answering_backend (fun st => st)
           shown_state shown_state sample_response eq_refl H).
Defined.

Lemma padded_form_valid :
  Js.trim (UrlScraperForm.url padded_form) <> [] /\
  (5 <= List.length (Js.trim (UrlScraperForm.description padded_form)))%nat.
Proof.
  split; [discriminate | apply Nat.leb_le; vm_compute; reflexivity].
Qed.

Lemma handleSubmit_outcome_witness :
  fst (UrlScraperForm.submit failing_scraper (fun st => st)
         padded_form padded_form)
  = {| UrlScraperForm.url := UrlScraperForm.url padded_form;
       UrlScraperForm.contentType := Api.journalist;
       UrlScraperForm.description := UrlScraperForm.description padded_form;
       UrlScraperForm.isLoading := false;
       UrlScraperForm.result :=
         Some {| UrlScraperForm.success := false;
                 UrlScraperForm.message := Js.lit "Failed to fetch";
                 UrlScraperForm.wordCount := 0;
                 UrlScraperForm.filename := [] |} |}.
Proof.
  exact (@handleSubmit_outcome failing_scraper (fun st => st)
           padded_form padded_form
           (proj1 padded_form_valid) (proj2 padded_form_valid)).
Defined.

Lemma clear_button_witness :
  ScraperButtons.clearVisible padded_form = true /\
  ScraperButtons.clickClear padded_form = UrlScraperForm.initial /\
  ScraperButtons.clearVisible (ScraperButtons.clickClear padded_form) = false.
Proof.
  split; [reflexivity|].
  exact (proj2 (proj2 (@clear_button_resets_form padded_form eq_refl))).
Defined.

Lemma scrape_request_witness :
  let request :=
    Api.ScrapeRequest.make (Js.lit "https://example.com/article")
      Api.journalist (Js.lit "Tech news about data breach") in
  In request
     (requests (snd (UrlScraperForm.submit failing_scraper (fun st => st)
                       padded_form padded_form))) /\
  Text.bare (Api.ScrapeRequest.url request) /\
  requests (snd (UrlScraperForm.submit failing_scraper (fun st => st)
                   (ScraperButtons.refilled padded_form request)
                   UrlScraperForm.initial))
  = [request].
Proof.
  cbv zeta.
  assert (H : In (Api.ScrapeRequest.make
                    (Js.lit "https://example.com/article")
                    Api.journalist (Js.lit "Tech news about data breach"))
                 (requests (snd (UrlScraperForm.submit failing_scraper
                                   (fun st => st) padded_form padded_form))))
    by (left; reflexivity).
  split; [exact H|].
  destruct (@scrape_request_is_bare failing_scraper (fun st => st)
              padded_form padded_form UrlScraperForm.initial _ H)
    as [_ [Hbare [_ [_ Hagain]]]].
  split; [exact Hbare | exact Hagain].
Defined.

Lemma score_bands_witness :
  (OutputDisplay.badge_rank (Display.getScoreBadge (65 # 100))
     <= OutputDisplay.badge_rank (Display.getScoreBadge (82 # 100)))%nat.
Proof.
  assert (H : (65 # 100 <= 82 # 100)%Q) by (unfold Qle; simpl; lia).
  exact (proj1 (@score_bands_monotone (65 # 100) (82 # 100) H)).
Defined.

Lemma badge_and_verdict_witness :
  exists view panel,
    Display.ResultsGrid (Display.deliver sample_response)
      = Some (view, panel) /\
    OutputDisplay.verdict_rank (Display.overall_verdict panel)
      = OutputDisplay.badge_rank (Display.scoreBadge view) /\
    Display.overall panel = Display.scorePercent view.
Proof.
  destruct (Display.ResultsGrid (Display.deliver sample_response))
    as [[view panel]|] eqn:Hgrid; [|vm_compute in Hgrid; discriminate].
  exists view, panel. split; [reflexivity|].
  exact (@badge_and_verdict_agree (Display.deliver sample_response)
           view panel Hgrid).
Defined.

Section RankingWitnesses.
Import Schema.
Local Open Scope R_scope.

(** The sample table asked for sales copy, under any limit. *)
Lemma sample_table_call (match_count : option Z) :
  match_human_content sample_table (Some unit_vector) match_count
                      (Some "sales"%string)
  = sql_bind (limit_count match_count) (fun count =>
      Ok (map select_list
            (limit count [(Some (Finite 0), aligned_row);
                          (Some (Finite 2), opposite_row);
                          (None, unindexed_row)]))).
Proof.
  unfold match_human_content.
  destruct (limit_count match_count) as [count|]; cbn [sql_bind]; trivial.
  change (filter (where_clause (Some "sales"%string)) sample_table)
    with [unindexed_row; opposite_row; aligned_row].
  cbn [for_each].
  rewrite with_distance_opposite, with_distance_aligned.
  cbn [with_distance unindexed_row human_content.embedding cosine_op sql_bind
       order_by insert_by fst key_le].
  destruct (Rle_dec 2 0); [lra|]. reflexivity.
Qed.

Lemma sample_table_nearest :
  match_human_content sample_table (Some unit_vector) (Some 1%Z)
                      (Some "sales"%string)
  = Ok [select_list (Some (Finite 0), aligned_row)].
Proof. rewrite sample_table_call. reflexivity. Qed.

Lemma sample_table_unlimited :
  match_human_content sample_table (Some unit_vector) None
                      (Some "sales"%string)
  = Ok (map select_list [(Some (Finite 0), aligned_row);
                         (Some (Finite 2), opposite_row);
                         (None, unindexed_row)]).
Proof. rewrite sample_table_call. reflexivity. Qed.

Lemma row_count_witness :
  List.length [select_list (Some (Finite 0), aligned_row)]
  = Nat.min (Z.to_nat 1)
      (List.length (filter (where_clause (Some "sales"%string)) sample_table)).
Proof.
  exact (@match_human_content_row_count sample_table (Some unit_vector)
           (Some 1%Z) (Some "sales"%string) _ sample_table_nearest).
Defined.

Lemma returns_selected_rows_witness :
  Permutation
    (map (fun r => (matched.id r, matched.content r,
                    matched.content_type r, matched.topic r))
         (map select_list [(Some (Finite 0), aligned_row);
                           (Some (Finite 2), opposite_row);
                           (None, unindexed_row)]))
    (map (fun h => (human_content.id h, human_content.content h,
                    human_content.content_type h, human_content.topic h))
         (filter (where_clause (Some "sales"%string)) sample_table)).
Proof.
  exact (@match_human_content_returns_selected_rows sample_table
           (Some unit_vector) (Some "sales"%string) _ sample_table_unlimited).
Defined.


Lemma raises_iff_negative_witness :
  match_human_content sample_table (Some unit_vector) (Some (-3)%Z)
                      (Some "sales"%string)
  = Raise "LIMIT must not be negative".
Proof.
  apply (@match_human_content_raises_iff_negative sample_table
           (Some unit_vector) (Some (-3)%Z) (Some "sales"%string)
           eq_refl sample_table_dimensions).
  exists (-3)%Z. split; [reflexivity | lia].
Defined.

End RankingWitnesses.
